(** * build_data.py: the extraction-and-reconciliation pipeline

    A shallow embedding of [src/build_data.py] (the parser of the
    Fama-French monthly factor file, the annual compounder, the year
    alignment and the assembly of [returns_data.json]) together with the
    properties of it that the specification states.

    Conventions of the embedding.
    - A Python [str] is a [string]: a sequence of characters with code
      points 0..255.
    - A Python [int] is a [Z].
    - A Python/NumPy [float] is an IEEE 754 binary64 number, taken from
      the standard library's executable specification [spec_float]
      (53 bits of precision, [emax = 1024]): every arithmetic operation is
      the correctly rounded one.
    - A [dict] keyed by years is a [gmap Z _], a [set] of years a [gset Z].
    - An exception that leaves a function is a value of [exn]; a function
      that can raise returns a [result]. *)

From Stdlib Require Import ZArith Ascii String SpecFloat.
From stdpp Require Import base option list gmap sorting pretty.

Local Open Scope Z_scope.

(** ** Python strings *)

Module PyStr.

(** [str.strip()] without argument removes the characters for which
    [str.isspace] holds; among the code points below 256 these are
    TAB..CR, FS..US, SPACE, NEL and NBSP. *)
Definition isspace (c : ascii) : bool :=
  let n := N_of_ascii c in
  ((9 <=? n) && (n <=? 13) || (28 <=? n) && (n <=? 32)
   || (n =? 133) || (n =? 160))%N.

Definition is_empty (s : string) : bool :=
  match s with EmptyString => true | String _ _ => false end.

Fixpoint lstrip (s : string) : string :=
  match s with
  | EmptyString => EmptyString
  | String c s' => if isspace c then lstrip s' else s
  end.

Fixpoint rstrip (s : string) : string :=
  match s with
  | EmptyString => EmptyString
  | String c s' =>
      let r := rstrip s' in
      if isspace c && is_empty r then EmptyString else String c r
  end.

Definition strip (s : string) : string := rstrip (lstrip s).

(** [s.split(sep)] for a separator of one character: never empty. *)
Fixpoint split (sep : ascii) (s : string) : list string :=
  match s with
  | EmptyString => [EmptyString]
  | String c s' =>
      if Ascii.eqb c sep then EmptyString :: split sep s'
      else match split sep s' with
           | h :: t => String c h :: t
           | [] => [String c EmptyString]
           end
  end.

(** [sep.join(parts)] for a separator of one character. *)
Fixpoint join (sep : ascii) (parts : list string) : string :=
  match parts with
  | [] => EmptyString
  | [p] => p
  | p :: rest => p +:+ String sep (join sep rest)
  end.

Definition startswith (s pre : string) : bool := String.prefix pre s.

(** [c in s] for a character [c]. *)
Fixpoint has_char (c : ascii) (s : string) : bool :=
  match s with
  | EmptyString => false
  | String d s' => Ascii.eqb c d || has_char c s'
  end.

(** [sub in s]. *)
Fixpoint contains (sub s : string) : bool :=
  String.prefix sub s ||
  match s with
  | EmptyString => false
  | String _ s' => contains sub s'
  end.

Definition len (s : string) : nat := String.length s.

(** The slice [s[i:j]] for [0 <= i <= j]. *)
Definition slice (i j : nat) (s : string) : string :=
  String.substring i (j - i) s.

Definition lower_char (c : ascii) : ascii :=
  let n := N_of_ascii c in
  if ((65 <=? n) && (n <=? 90))%N then ascii_of_N (n + 32) else c.

Fixpoint lower (s : string) : string :=
  match s with
  | EmptyString => EmptyString
  | String c s' => String (lower_char c) (lower s')
  end.

(** [format(n, "02d")]: the decimal numeral, zero-padded to two
    characters. A numeral of one character is a single digit. *)
Definition format_02d (n : Z) : string :=
  let s := pretty n in
  if (String.length s <? 2)%nat then "0" +:+ s else s.

End PyStr.

(** ** Python numbers: [int(str)], [float(str)] and binary64 arithmetic *)

Module PyNum.

Definition digit (c : ascii) : option Z := Z.of_nat <$> Ascii.is_nat c.

(** The rest of a [digitpart ::= digit (["_"] digit)*] whose first
    digits have value [acc] and number [n]: the longest such prefix of
    [s], and what follows it. *)
Fixpoint digitpart_go (acc : Z) (n : nat) (s : string) : Z * nat * string :=
  match s with
  | EmptyString => (acc, n, s)
  | String c s' =>
      match digit c with
      | Some d => digitpart_go (10 * acc + d) (S n) s'
      | None =>
          if Ascii.eqb c "_" then
            match s' with
            | EmptyString => (acc, n, s)
            | String c2 s'' =>
                match digit c2 with
                | Some d => digitpart_go (10 * acc + d) (S n) s''
                | None => (acc, n, s)
                end
            end
          else (acc, n, s)
      end
  end.

Definition digitpart (s : string) : option (Z * nat * string) :=
  match s with
  | EmptyString => None
  | String c s' =>
      match digit c with
      | Some d => Some (digitpart_go d 1 s')
      | None => None
      end
  end.

(** An optional sign: [true] for ["-"]. *)
Definition sign (s : string) : bool * string :=
  match s with
  | String "-" s' => (true, s')
  | String "+" s' => (false, s')
  | _ => (false, s)
  end.

(** [int()] and [float()] pass over blanks at both ends of their
    argument: the white space of the C locale, TAB..CR and SPACE, and, of
    the other code points below 256, NEL and NBSP. The separators FS..US,
    which [str.strip()] removes, are not among them: [int] of a string
    that holds one raises [ValueError]. *)
Definition isblank (c : ascii) : bool :=
  let n := N_of_ascii c in
  ((9 <=? n) && (n <=? 13) || (n =? 32) || (n =? 133) || (n =? 160))%N.

Fixpoint lskip (s : string) : string :=
  match s with
  | EmptyString => EmptyString
  | String c s' => if isblank c then lskip s' else s
  end.

Fixpoint rskip (s : string) : string :=
  match s with
  | EmptyString => EmptyString
  | String c s' =>
      let r := rskip s' in
      if isblank c && PyStr.is_empty r then EmptyString else String c r
  end.

Definition skip_blanks (s : string) : string := rskip (lskip s).

(** [int(s)] in base ten: [None] stands for [ValueError]. *)
Definition py_int (s : string) : option Z :=
  let '(neg, s1) := sign (skip_blanks s) in
  match digitpart s1 with
  | Some (v, _, EmptyString) => Some (if neg then - v else v)
  | _ => None
  end.

(** What [float(s)] reads: a NaN, an infinity, or the decimal
    [(-1)^neg * mantissa * 10^exponent]. *)
Inductive float_literal : Type :=
  | LitNan
  | LitInf (neg : bool)
  | LitDec (neg : bool) (mantissa : Z) (exponent : Z).

(** [number ::= [digitpart] "." digitpart | digitpart ["."]]: the
    mantissa, the number of digits after the point, and the rest. *)
Definition number (s : string) : option (Z * nat * string) :=
  match digitpart s with
  | Some (ip, _, String "." s1) =>
      match digitpart s1 with
      | Some (fp, fn, rest) => Some (ip * 10 ^ Z.of_nat fn + fp, fn, rest)
      | None => Some (ip, 0%nat, s1)
      end
  | Some (ip, _, rest) => Some (ip, 0%nat, rest)
  | None =>
      match s with
      | String "." s1 =>
          match digitpart s1 with
          | Some (fp, fn, rest) => Some (fp, fn, rest)
          | None => None
          end
      | _ => None
      end
  end.

(** [exponent ::= ("e" | "E") [sign] digitpart], when present. *)
Definition exponent (s : string) : option (Z * string) :=
  match s with
  | EmptyString => Some (0, s)
  | String c s1 =>
      if Ascii.eqb c "e" || Ascii.eqb c "E" then
        let '(neg, s2) := sign s1 in
        match digitpart s2 with
        | Some (v, _, rest) => Some (if neg then - v else v, rest)
        | None => None
        end
      else None
  end.

Definition float_lit (s : string) : option float_literal :=
  let '(neg, s1) := sign (skip_blanks s) in
  let w := PyStr.lower s1 in
  if String.eqb w "inf" || String.eqb w "infinity" then Some (LitInf neg)
  else if String.eqb w "nan" then Some LitNan
  else
    match number s1 with
    | Some (m, fn, s2) =>
        match exponent s2 with
        | Some (e, EmptyString) => Some (LitDec neg m (e - Z.of_nat fn))
        | _ => None
        end
    | None => None
    end.

(** *** binary64 *)

Definition float64 : Type := spec_float.

Definition prec : Z := 53.
Definition emax : Z := 1024.

Definition fadd : float64 -> float64 -> float64 := SFadd prec emax.
Definition fsub : float64 -> float64 -> float64 := SFsub prec emax.
Definition fmul : float64 -> float64 -> float64 := SFmul prec emax.
Definition fdiv : float64 -> float64 -> float64 := SFdiv prec emax.

(** The float nearest to the quotient of two positive integers. *)
Definition of_ratio (neg : bool) (num den : positive) : float64 :=
  fdiv (S754_finite neg num 0) (S754_finite false den 0).

(** [float(n)] for an integer [n]. *)
Definition of_Z (n : Z) : float64 := binary_normalize prec emax n 0 false.

(** The correctly rounded value of a literal, as [strtod] gives it. *)
Definition of_literal (l : float_literal) : float64 :=
  match l with
  | LitNan => S754_nan
  | LitInf neg => S754_infinity neg
  | LitDec neg m e =>
      match m with
      | Zpos p =>
          if 0 <=? e then binary_round prec emax neg (p * Z.to_pos (10 ^ e)) 0
          else of_ratio neg p (Z.to_pos (10 ^ (- e)))
      | _ => S754_zero neg
      end
  end.

(** [float(s)]: [None] stands for [ValueError]. *)
Definition py_float (s : string) : option float64 :=
  of_literal <$> float_lit s.

(** The integer nearest to [num / den], ties to the even one. *)
Definition div_half_even (num : Z) (den : Z) : Z :=
  let q := num / den in
  let r := num mod den in
  match 2 * r ?= den with
  | Lt => q
  | Gt => q + 1
  | Eq => if Z.even q then q else q + 1
  end.

(** C's [rint] in the default rounding mode. *)
Definition rint (x : float64) : float64 :=
  match x with
  | S754_finite s m e =>
      if 0 <=? e then x
      else
        match div_half_even (Zpos m) (2 ^ (- e)) with
        | Zpos k => binary_round prec emax s k 0
        | _ => S754_zero s
        end
  | _ => x
  end.

(** [round(x, ndigits)] for a [numpy.float64] scalar [x] and
    [ndigits > 0]: the scalar's [__round__] is NumPy's [round], which
    scales by the power of ten, applies [rint] and scales back. *)
Definition np_round (x : float64) (ndigits : nat) : float64 :=
  let f := of_Z (10 ^ Z.of_nat ndigits) in
  fdiv (rint (fmul x f)) f.

(** [round(x, ndigits)] for a built-in [float] [x] and [ndigits >= 0]:
    the decimal with [ndigits] places nearest to the exact value of [x]
    (ties to even), read back as a float; a NaN, an infinity or a zero
    is returned as it is. *)
Definition py_round (x : float64) (ndigits : nat) : float64 :=
  match x with
  | S754_finite s m e =>
      let p := 10 ^ Z.of_nat ndigits in
      match div_half_even (Zpos m * p * 2 ^ Z.max e 0) (2 ^ Z.max (- e) 0) with
      | Zpos k => of_ratio s k (Z.to_pos p)
      | _ => S754_zero s
      end
  | _ => x
  end.

(** *** The numerals [int()] and [float()] accept

    The grammar of the language reference, stated on its own: the
    functions above are shown further down to accept exactly these
    strings. *)

(** [digitpart ::= digit (["_"] digit)*] *)
Inductive digitpart_of : string -> Prop :=
  | digitpart_one c :
      is_Some (digit c) -> digitpart_of (String c EmptyString)
  | digitpart_next c s :
      is_Some (digit c) -> digitpart_of s -> digitpart_of (String c s)
  | digitpart_underscore c s :
      is_Some (digit c) -> digitpart_of s ->
      digitpart_of (String c (String "_" s)).

(** What may follow the first digit of a digit part. *)
Inductive digits_tail : string -> Prop :=
  | digits_tail_nil : digits_tail EmptyString
  | digits_tail_digit c s :
      is_Some (digit c) -> digits_tail s -> digits_tail (String c s)
  | digits_tail_underscore c s :
      is_Some (digit c) -> digits_tail s ->
      digits_tail (String "_" (String c s)).

(** A string that goes on with a digit part: it starts with a digit, or
    with an underscore and a digit. *)
Definition continues (s : string) : bool :=
  match s with
  | EmptyString => false
  | String c s' =>
      match digit c with
      | Some _ => true
      | None =>
          Ascii.eqb c "_" &&
          match s' with
          | EmptyString => false
          | String c2 _ => bool_decide (is_Some (digit c2))
          end
      end
  end.

(** A numeral with an optional ["+"] or ["-"] before it. *)
Definition signed (body : string -> Prop) (s : string) : Prop :=
  body s \/ exists t, (s = String "+" t \/ s = String "-" t) /\ body t.

(** What [int] accepts: blanks, an optional sign, a digit part, blanks. *)
Definition int_numeral (s : string) : Prop :=
  signed digitpart_of (skip_blanks s).

(** [number ::= [digitpart] "." digitpart | digitpart ["."]] *)
Definition number_of (s : string) : Prop :=
  digitpart_of s
  \/ (exists ip, digitpart_of ip /\ s = ip +:+ ".")
  \/ (exists ip fp, digitpart_of ip /\ digitpart_of fp /\ s = ip +:+ "." +:+ fp)
  \/ (exists fp, digitpart_of fp /\ s = "." +:+ fp).

(** [exponent ::= ("e" | "E") [sign] digitpart] *)
Definition exponent_of (s : string) : Prop :=
  exists c t, s = String c t /\ (c = "e" \/ c = "E")%char
              /\ signed digitpart_of t.

(** [floatnumber ::= number [exponent]] *)
Definition floatnumber_of (s : string) : Prop :=
  number_of s \/ exists m x, number_of m /\ exponent_of x /\ s = m +:+ x.

(** [absfloatvalue ::= floatnumber | infinity | nan], the two words in
    any case of letters. *)
Definition absfloat_of (s : string) : Prop :=
  PyStr.lower s = "inf" \/ PyStr.lower s = "infinity"
  \/ PyStr.lower s = "nan" \/ floatnumber_of s.

(** The rest after a number: nothing, or what starts an exponent. *)
Definition ends_number (rest : string) : Prop :=
  rest = EmptyString \/ exists c t, rest = String c t /\ (c = "e" \/ c = "E")%char.

(** What [float] accepts: blanks, an optional sign, a float value,
    blanks. *)
Definition float_numeral (s : string) : Prop :=
  signed absfloat_of (skip_blanks s).

End PyNum.

(** ** The program *)

Import PyStr PyNum.

(** The exceptions that can leave the program's functions. *)
Inductive exn : Type :=
  | ValueError (msg : string)
  | KeyError (key : string)
  | IndexError
  | ZeroDivisionError.

Inductive result (A : Type) : Type :=
  | Ok (a : A)
  | Raise (e : exn).
Arguments Ok {A} a.
Arguments Raise {A} e.

(** One element of [records], which is also one row of the data frame. *)
Record Row : Type := mkRow {
  year : Z;
  month : Z;
  mkt_rf : float64;
  smb : float64;
  hml : float64;
  rf : float64
}.

(** The columns [download_french_factors] adds to the frame; NumPy
    computes each of them row by row. *)
Definition mkt_total (r : Row) : float64 := fadd (mkt_rf r) (rf r).
Definition small_total (r : Row) : float64 := fadd (fadd (mkt_rf r) (rf r)) (smb r).
Definition tbill (r : Row) : float64 := rf r.

(** The names of the frame's float columns, and [row[col]]. *)
Inductive column : Type :=
  | Col_mkt_rf | Col_smb | Col_hml | Col_rf
  | Col_mkt_total | Col_small_total | Col_tbill.

Definition col_value (col : column) : Row -> float64 :=
  match col with
  | Col_mkt_rf => mkt_rf
  | Col_smb => smb
  | Col_hml => hml
  | Col_rf => rf
  | Col_mkt_total => mkt_total
  | Col_small_total => small_total
  | Col_tbill => tbill
  end.

(** *** [download_french_factors], from the decoded text on *)

Definition newline : ascii := "010".
Definition comma : ascii := ",".

(** Python's truth value of [start_idx] and [end_idx]: [None] and [0]
    are false. *)
Definition truthy (idx : option nat) : bool :=
  match idx with
  | Some (S _) => true
  | _ => false
  end.

(** [line.strip().startswith("192") and "," in line] *)
Definition is_start_line (line : string) : bool :=
  startswith (strip line) "192" && has_char comma line.

(** [line.strip() == "" or "Annual" in line] *)
Definition is_end_line (line : string) : bool :=
  is_empty (strip line) || contains "Annual" line.

(** The loop [for i, line in enumerate(lines)] from index [i] on, with
    the current [start_idx]; it gives the final [(start_idx, end_idx)]. *)
Fixpoint scan_lines (i : nat) (lines : list string) (start_idx : option nat)
  : option nat * option nat :=
  match lines with
  | [] => (start_idx, None)
  | line :: rest =>
      let start_idx :=
        if is_start_line line && bool_decide (start_idx = None)
        then Some i else start_idx in
      if truthy start_idx && is_end_line line
         && (default 0 start_idx + 10 <? i)%nat
      then (start_idx, Some i)
      else scan_lines (S i) rest start_idx
  end.

(** [lines[a:b]] for indices within [0 .. len(lines)] or beyond. *)
Definition list_slice {A} (a b : nat) (l : list A) : list A :=
  take (b - a) (drop a l).

(** The body of the loop over [monthly_lines]: [None] when the line is
    passed over ([continue], or a [ValueError] caught by the handler). *)
Definition parse_line (line : string) : option Row :=
  let parts := split comma (strip line) in
  if (5 <=? length parts)%nat then
    let ym := strip (default EmptyString (parts !! 0%nat)) in
    if negb (len ym =? 6)%nat then None
    else
      y ← py_int (slice 0 4 ym);
      m ← py_int (slice 4 6 ym);
      a ← py_float (strip (default EmptyString (parts !! 1%nat)));
      b ← py_float (strip (default EmptyString (parts !! 2%nat)));
      c ← py_float (strip (default EmptyString (parts !! 3%nat)));
      d ← py_float (strip (default EmptyString (parts !! 4%nat)));
      Some (mkRow y m a b c d)
  else None.

Definition parse_rows (monthly_lines : list string) : list Row :=
  omap parse_line monthly_lines.

(** The lines of the monthly block, once [start_idx] is known. *)
Definition block_of (lines : list string) (start_idx : nat)
    (end_idx : option nat) : list string :=
  list_slice start_idx
    (if truthy end_idx then default 0%nat end_idx else length lines) lines.

Definition no_start_msg : string :=
  "Could not find monthly data start in FF CSV".

(** [raw] is the decoded text of the CSV member of the archive. A frame
    built from no record has no column, so that [df["mkt_rf"]] raises
    [KeyError]. *)
Definition download_french_factors (raw : string) : result (list Row) :=
  let lines := split newline raw in
  let '(start_idx, end_idx) := scan_lines 0 lines None in
  match start_idx with
  | None => Raise (ValueError no_start_msg)
  | Some s =>
      let monthly_lines := block_of lines s end_idx in
      match parse_rows monthly_lines with
      | [] => Raise (KeyError "mkt_rf")
      | records => Ok records
      end
  end.

(** *** [monthly_to_annual] *)

(** [sorted(s)] for a set of integers. *)
Definition sorted (s : gset Z) : list Z := merge_sort Z.le (elements s).

(** [df.groupby("year")]: the distinct years in ascending order, each
    with its rows in the order of the frame. *)
Definition group_of (df : list Row) (y : Z) : list Row :=
  filter (λ r, year r = y) df.

Definition groupby_year (df : list Row) : list (Z * list Row) :=
  (λ y, (y, group_of df y)) <$> sorted (list_to_set (year <$> df)).

(** [1 + r / 100] *)
Definition growth (r : float64) : float64 :=
  fadd (of_Z 1) (fdiv r (of_Z 100)).

(** The inner loop, [cum *= (1 + r / 100)] for [r] in [values], from a
    given [cum]; the source starts it at [cum = 1.0]. *)
Definition compound_from (cum : float64) (values : list float64) : float64 :=
  foldl (λ cum r, fmul cum (growth r)) cum values.

Definition compound (values : list float64) : float64 :=
  compound_from (of_literal (LitDec false 10 (-1))) values.

(** [round((cum - 1) * 100, 2)]; [cum] is a NumPy scalar. *)
Definition annual_return (values : list float64) : float64 :=
  np_round (fmul (fsub (compound values) (of_Z 1)) (of_Z 100)) 2.

(** [monthly_to_annual] with the number of months a year needs as a
    parameter; the source has the literal 11. *)
Definition monthly_to_annual_with (need : nat) (df : list Row) (col : column)
  : gmap Z float64 :=
  foldl (λ annual '(y, group),
           if (length group <? need)%nat then annual
           else <[y := annual_return (col_value col <$> group)]> annual)
        ∅ (groupby_year df).

Definition monthly_to_annual : list Row -> column -> gmap Z float64 :=
  monthly_to_annual_with 11.

(** *** The static tables *)

(** The value of a Python float literal. *)
Definition lit (s : string) : float64 := default S754_nan (py_float s).

Definition table (entries : list (Z * string)) : gmap Z float64 :=
  list_to_map (prod_map id lit <$> entries).

Definition get_bond_returns : gmap Z float64 :=
  table [
      (1926, "7.77"); (1927, "8.93"); (1928, "0.10"); (1929, "3.42");
      (1930, "4.66"); (1931, "-5.31"); (1932, "16.84"); (1933, "-0.07");
      (1934, "10.03"); (1935, "4.98"); (1936, "7.52"); (1937, "0.23");
      (1938, "5.53"); (1939, "5.94"); (1940, "6.09"); (1941, "0.93");
      (1942, "3.22"); (1943, "2.08"); (1944, "2.81"); (1945, "10.73");
      (1946, "-0.10"); (1947, "-2.63"); (1948, "3.40"); (1949, "6.45");
      (1950, "0.06"); (1951, "-3.94"); (1952, "1.16"); (1953, "3.64");
      (1954, "7.19"); (1955, "-1.30"); (1956, "-5.59"); (1957, "7.46");
      (1958, "-6.09"); (1959, "-2.26"); (1960, "13.78"); (1961, "0.97");
      (1962, "6.89"); (1963, "1.21"); (1964, "3.51"); (1965, "0.71");
      (1966, "3.65"); (1967, "-9.18"); (1968, "-0.26"); (1969, "-5.07");
      (1970, "12.11"); (1971, "13.23"); (1972, "5.69"); (1973, "-1.11");
      (1974, "4.35"); (1975, "9.20"); (1976, "16.75"); (1977, "-0.69");
      (1978, "-1.18"); (1979, "-1.23"); (1980, "-3.95"); (1981, "1.86");
      (1982, "40.36"); (1983, "0.65"); (1984, "15.48"); (1985, "30.97");
      (1986, "24.53"); (1987, "-2.71"); (1988, "9.67"); (1989, "18.11");
      (1990, "6.18"); (1991, "19.30"); (1992, "8.05"); (1993, "18.24");
      (1994, "-7.77"); (1995, "31.67"); (1996, "-0.93"); (1997, "15.85");
      (1998, "13.06"); (1999, "-8.96"); (2000, "21.48"); (2001, "3.70");
      (2002, "17.84"); (2003, "1.45"); (2004, "8.51"); (2005, "7.81");
      (2006, "1.19"); (2007, "9.88"); (2008, "25.87"); (2009, "-14.90");
      (2010, "10.14"); (2011, "33.97"); (2012, "3.36"); (2013, "-12.76");
      (2014, "24.69"); (2015, "0.84"); (2016, "1.18"); (2017, "2.80");
      (2018, "-1.16"); (2019, "14.23"); (2020, "18.04"); (2021, "-4.42");
      (2022, "-29.26"); (2023, "3.98"); (2024, "-4.60"); (2025, "1.50")
  ].

Definition get_inflation : gmap Z float64 :=
  table [
      (1926, "1.49"); (1927, "-1.72"); (1928, "-1.17"); (1929, "0.20");
      (1930, "-2.30"); (1931, "-8.98"); (1932, "-10.30"); (1933, "-5.11");
      (1934, "3.08"); (1935, "2.24"); (1936, "1.46"); (1937, "3.60");
      (1938, "-2.08"); (1939, "-1.42"); (1940, "0.72"); (1941, "5.00");
      (1942, "10.88"); (1943, "6.13"); (1944, "1.73"); (1945, "2.27");
      (1946, "8.33"); (1947, "14.36"); (1948, "8.07"); (1949, "-1.03");
      (1950, "1.26"); (1951, "7.88"); (1952, "1.92"); (1953, "0.75");
      (1954, "0.75"); (1955, "-0.37"); (1956, "1.49"); (1957, "3.31");
      (1958, "2.85"); (1959, "0.69"); (1960, "1.72"); (1961, "1.01");
      (1962, "1.00"); (1963, "1.32"); (1964, "1.31"); (1965, "1.61");
      (1966, "2.86"); (1967, "3.09"); (1968, "4.19"); (1969, "5.46");
      (1970, "5.84"); (1971, "4.30"); (1972, "3.21"); (1973, "6.22");
      (1974, "11.04"); (1975, "9.13"); (1976, "5.76"); (1977, "6.50");
      (1978, "7.59"); (1979, "11.22"); (1980, "13.58"); (1981, "10.35");
      (1982, "6.16"); (1983, "3.21"); (1984, "4.32"); (1985, "3.56");
      (1986, "1.86"); (1987, "3.74"); (1988, "4.01"); (1989, "4.83");
      (1990, "5.40"); (1991, "4.21"); (1992, "3.03"); (1993, "2.96");
      (1994, "2.61"); (1995, "2.81"); (1996, "2.93"); (1997, "2.34");
      (1998, "1.55"); (1999, "2.19"); (2000, "3.38"); (2001, "2.83");
      (2002, "1.59"); (2003, "2.27"); (2004, "2.68"); (2005, "3.39");
      (2006, "3.23"); (2007, "2.85"); (2008, "3.84"); (2009, "-0.36");
      (2010, "1.64"); (2011, "3.16"); (2012, "2.07"); (2013, "1.46");
      (2014, "1.62"); (2015, "0.12"); (2016, "1.26"); (2017, "2.13");
      (2018, "2.44"); (2019, "1.81"); (2020, "1.23"); (2021, "4.70");
      (2022, "8.00"); (2023, "4.12"); (2024, "2.90"); (2025, "2.80")
  ].

(** *** [main] *)

(** Exceptions propagate: [x ← r; k] runs [k] when [r] returned. *)
#[global] Instance result_bind : MBind result :=
  λ A B k r, match r with Ok a => k a | Raise e => Raise e end.

(** The document written to [returns_data.json]. A gap in a series is
    [None]. *)
Record Asset : Type := mkAsset {
  name : string;
  short : string;
  description : string;
  returns : list (option float64)
}.

Record Monthly : Type := mkMonthly {
  dates : list string;
  stocks : list float64;
  tbills : list float64
}.

Record Dataset : Type := mkDataset {
  generated : string;
  years : list Z;
  monthly : Monthly;
  assets : list (string * Asset)
}.

(** [sorted(set(large_stocks.keys()) & set(bonds.keys()) & set(inflation.keys()))] *)
Definition all_years_of (large_stocks bonds inflation : gmap Z float64)
  : list Z :=
  sorted (dom large_stocks ∩ dom bonds ∩ dom inflation).

(** [ff.sort_values(["year", "month"])]: a stable sort on the pair. *)
Definition row_le (r1 r2 : Row) : bool :=
  (year r1 <? year r2) || (year r1 =? year r2) && (month r1 <=? month r2).

Fixpoint insert_row (r : Row) (l : list Row) : list Row :=
  match l with
  | [] => [r]
  | x :: l' => if row_le r x then r :: l else x :: insert_row r l'
  end.

Definition sort_values (ff : list Row) : list Row := foldr insert_row [] ff.

(** [f"{int(row['year'])}-{int(row['month']):02d}"] *)
Definition year_month (row : Row) : string :=
  pretty (year row) +:+ "-" +:+ format_02d (month row).

(** [[series.get(y, None) for y in all_years]] *)
Definition aligned (series : gmap Z float64) (all_years : list Z)
  : list (option float64) :=
  (λ y, series !! y) <$> all_years.

(** The summary loop prints only, but [sum(rets) / len(rets)] raises when
    an asset has no value at all. *)
Definition summary_stats (data : Dataset) : result unit :=
  if forallb (λ a, negb (bool_decide (omap id (returns a.2) = [])))
             (assets data)
  then Ok tt else Raise ZeroDivisionError.

(** Everything [main] does before it opens the output file. [now] is
    [datetime.now().isoformat()], [raw] the decoded CSV text. *)
Definition build (now raw : string) : result Dataset :=
  ff ← download_french_factors raw;
  let large_stocks := monthly_to_annual ff Col_mkt_total in
  let small_stocks := monthly_to_annual ff Col_small_total in
  let tbills := monthly_to_annual ff Col_tbill in
  let bonds := get_bond_returns in
  let inflation := get_inflation in
  let all_years := all_years_of large_stocks bonds inflation in
  (* the "Year range" message reads all_years[0] and all_years[-1] *)
  (if bool_decide (all_years = []) then Raise IndexError else Ok tt);;
  let ff_sorted := sort_values ff in
  let monthly_dates := year_month <$> ff_sorted in
  let monthly_stocks := (λ row, py_round (mkt_total row) 3) <$> ff_sorted in
  let monthly_tbills := (λ row, py_round (tbill row) 3) <$> ff_sorted in
  let data :=
    mkDataset (slice 0 10 now) all_years
      (mkMonthly monthly_dates monthly_stocks monthly_tbills)
      [ ("large_stocks",
         mkAsset "Large Company Stocks" "Large Stocks"
           "S&P 500 total return (dividends reinvested)"
           (aligned large_stocks all_years));
        ("small_stocks",
         mkAsset "Small Company Stocks" "Small Stocks"
           "Small-cap total return (Fama-French SMB + market)"
           (aligned small_stocks all_years));
        ("lt_gov_bonds",
         mkAsset "Long-Term Government Bonds" "LT Gov Bonds"
           "Long-term U.S. Treasury bond total return"
           (aligned bonds all_years));
        ("tbills",
         mkAsset "U.S. Treasury Bills" "T-Bills"
           "Short-term Treasury bill return (risk-free rate)"
           (aligned tbills all_years));
        ("inflation",
         mkAsset "Inflation (CPI)" "Inflation"
           "Consumer Price Index annual change"
           (aligned inflation all_years)) ] in
  summary_stats data;;
  Ok data.

(** [main] on a file system in which [returns_data.json] holds [file]
    ([None]: no such file): the outcome and the file afterwards. The file
    is opened for writing only after everything else succeeded. *)
Definition main (now raw : string) (file : option Dataset)
  : result unit * option Dataset :=
  match build now raw with
  | Ok data => (Ok tt, Some data)
  | Raise e => (Raise e, file)
  end.

(** ** The specification's wording, for comparison with the code *)

(** The start condition as the specification words it: the leading token
    starts with "19" or "20", and the line has a delimiter. *)
Definition claimed_start_line (line : string) : bool :=
  (startswith (strip line) "19" || startswith (strip line) "20")
  && has_char comma line.

(** A date token as the specification has it, [YYYYMM]: six decimal
    digits, the last two a month from 01 to 12. *)
Definition is_yyyymm (ym : string) : bool :=
  match ym with
  | String c1 (String c2 (String c3 (String c4
      (String c5 (String c6 EmptyString))))) =>
      match digit c1, digit c2, digit c3, digit c4, digit c5, digit c6 with
      | Some _, Some _, Some _, Some _, Some d5, Some d6 =>
          (1 <=? 10 * d5 + d6) && (10 * d5 + d6 <=? 12)
      | _, _, _, _, _, _ => false
      end
  | _ => false
  end.

(** A well-formed row as the specification words it: at least five
    fields, the first a [YYYYMM] date token, the next four numbers. *)
Definition claimed_well_formed (line : string) : Prop :=
  let parts := split comma (strip line) in
  (5 <= length parts)%nat ∧
  is_yyyymm (strip (default EmptyString (parts !! 0%nat))) = true ∧
  ∀ k, (1 <= k <= 4)%nat →
    float_numeral (strip (default EmptyString (parts !! k))).

(** The rows the code takes, told without its parsing functions: at
    least five fields; a first field of six characters of which the first
    four and the last two are each a numeral of [int]; four more fields
    that are numerals of [float]. The first field need not be a date:
    ["192613"] and ["-999-9"] qualify. *)
Definition accepted_line (line : string) : Prop :=
  let parts := split comma (strip line) in
  (5 <= length parts)%nat ∧
  let ym := strip (default EmptyString (parts !! 0%nat)) in
  len ym = 6%nat ∧
  int_numeral (slice 0 4 ym) ∧
  int_numeral (slice 4 6 ym) ∧
  ∀ k, (1 <= k <= 4)%nat →
    float_numeral (strip (default EmptyString (parts !! k))).

(** The date token of a row: its first field, stripped. *)
Definition ym_token (line : string) : string :=
  strip (default EmptyString (split comma (strip line) !! 0%nat)).

(** Rounding half away from zero to two decimal places, on the exact
    value of a finite float. *)
Definition round_half_away_2 (x : float64) : float64 :=
  match x with
  | S754_finite s m e =>
      let num := Zpos m * 100 * 2 ^ Z.max e 0 in
      let den := 2 ^ Z.max (- e) 0 in
      match (2 * num + den) / (2 * den) with
      | Zpos k => of_ratio s k 100
      | _ => S754_zero s
      end
  | _ => x
  end.


(** ** Sample inputs *)

(** A row of the factor file with the given date token and fields. *)
Definition csv_row (ym a b c d : string) : string :=
  join comma [ym; a; b; c; d].

Definition months_1927 : list string :=
  ["192701"; "192702"; "192703"; "192704"; "192705"; "192706";
   "192707"; "192708"; "192709"; "192710"; "192711"; "192712"].

Definition sample_rows : list string :=
  (λ ym, csv_row ym "    2.96" "   -2.56" "   -2.43" "    0.2234")
    <$> months_1927.

Definition annual_section : list string :=
  [""; " Annual Factors: January-December";
   ",Mkt-RF,SMB,HML,RF"; "  1927,   29.47,   -2.46,   -3.75,    3.12"].

(** A file like the published one: prose, a header, the monthly block
    (here the year 1927 and one month of 1928), the annual section. *)
Definition sample_raw : string :=
  join newline
    (["This file was created using the CRSP database."; "";
      ",Mkt-RF,SMB,HML,RF"]
     ++ sample_rows
     ++ [csv_row "192801" "   -0.68" "    4.26" "   -0.75" "    0.25"]
     ++ annual_section).

Definition sample_now : string := "2026-01-01T12:00:00.000000".

Definition sample_ff : list Row :=
  Eval vm_compute in
    match download_french_factors sample_raw with
    | Ok ff => ff
    | Raise _ => []
    end.

Definition sample_data : Dataset :=
  Eval vm_compute in
    match build sample_now sample_raw with
    | Ok data => data
    | Raise _ => mkDataset "" [] (mkMonthly [] [] []) []
    end.

(** A file whose rows start in 1930. *)
Definition raw_1930 : string :=
  join newline
    [",Mkt-RF,SMB,HML,RF";
     csv_row "193001" "    5.61" "    3.55" "   -1.01" "    0.14";
     csv_row "193002" "    2.50" "    0.13" "    0.38" "    0.30"].

(** The sample file without its prose and header: the first row is the
    first line. *)
Definition raw_start_first : string :=
  join newline (sample_rows ++ annual_section).

(** Three months of one year, with returns of 10, -5 and 2 percent in the
    risk-free column. *)
Definition three_months : list Row :=
  parse_rows
    [csv_row "192701" "0" "0" "0" "10";
     csv_row "192702" "0" "0" "0" "-5";
     csv_row "192703" "0" "0" "0" "2"].

(** Eleven months of 1927: ten flat ones and one of 128.125 percent, which
    compounds to exactly 128.125 percent. *)
Definition tie_year : list Row :=
  parse_rows
    (csv_row "192701" "0" "0" "0" "128.125"
     :: ((λ ym, csv_row ym "0" "0" "0" "0") <$> drop 2 months_1927)).

(** Ten months of 1927, and the same block with the row of October
    stated a second time. *)
Definition ten_months : list string := take 10 sample_rows.
Definition ten_months_dup : list string :=
  ten_months ++ [csv_row "192710" "    2.96" "   -2.56" "   -2.43" "    0.2234"].

(** A block of three rows whose middle row has a field that is not a
    number. *)
Definition block_with_bad_row : list string :=
  [csv_row "192607" "2.96" "-2.56" "-2.43" "0.22";
   csv_row "192608" "2.64" "n/a" "3.82" "0.25";
   csv_row "192609" "0.36" "-1.40" "0.13" "0.23"].

(** A file with rows of 1927 to June only: no year has eleven months. *)
Definition raw_half_year : string :=
  join newline (",Mkt-RF,SMB,HML,RF" :: take 6 sample_rows).

(** ** Further notions and sample inputs *)

(** The order of the calendar on rows: by year, then by month. *)
Definition chronological (r1 r2 : Row) : Prop :=
  year r1 < year r2 ∨ (year r1 = year r2 ∧ month r1 <= month r2).

(** The sample year with the first month of 1928 put before it. *)
Definition out_of_order_raw : string :=
  join newline
    (",Mkt-RF,SMB,HML,RF"
     :: csv_row "192801" "   -0.68" "    4.26" "   -0.75" "    0.25"
     :: sample_rows).

Definition out_of_order_ff : list Row :=
  Eval vm_compute in
    match download_french_factors out_of_order_raw with
    | Ok ff => ff
    | Raise _ => []
    end.

Definition out_of_order_data : Dataset :=
  Eval vm_compute in
    match build sample_now out_of_order_raw with
    | Ok data => data
    | Raise _ => mkDataset "" [] (mkMonthly [] [] []) []
    end.

(** The text with a carriage return before every line feed, as a file
    with DOS line ends has it. *)
Definition cr : ascii := "013".

Fixpoint crlf (s : string) : string :=
  match s with
  | EmptyString => EmptyString
  | String c s' =>
      if Ascii.eqb c newline then String cr (String newline (crlf s'))
      else String c (crlf s')
  end.

(** A line, and the same line with a carriage return at its end or not. *)
Definition same_line (line' line : string) : Prop :=
  line' = line ∨ line' = line +:+ String cr EmptyString.

(** Eleven months of 1927 in which the risk-free rate of March is not a
    number. *)
Definition nan_year : list Row :=
  parse_rows
    ((λ ym, csv_row ym "    2.96" "   -2.56" "   -2.43"
              (if String.eqb ym "192703" then "     nan" else "    0.25"))
       <$> take 11 months_1927).

(** A file with a blank line after the second row of the block and the
    usual blank line before the annual section. *)
Definition blank_lines_raw : string :=
  join newline
    ([",Mkt-RF,SMB,HML,RF"]
     ++ take 2 sample_rows ++ [""] ++ drop 2 sample_rows
     ++ annual_section).

(** The character of a decimal digit, and strings of digits. *)
Definition digit_char (d : Z) : ascii := ascii_of_N (48 + Z.to_N d).

Fixpoint all_digits (s : string) : bool :=
  match s with
  | EmptyString => true
  | String c s' => bool_decide (is_Some (digit c)) && all_digits s'
  end.

Definition digits4 (d1 d2 d3 d4 : Z) : string :=
  String (digit_char d1) (String (digit_char d2)
    (String (digit_char d3) (String (digit_char d4) EmptyString))).

Definition digits2 (d1 d2 : Z) : string :=
  String (digit_char d1) (String (digit_char d2) EmptyString).

(** The numeral of four digits [d1 d2 d3 d4] reads as its number, and the
    number is written as that numeral. *)
Definition year_token_ok (d1 d2 d3 d4 : Z) : bool :=
  let y := 1000 * d1 + 100 * d2 + 10 * d3 + d4 in
  bool_decide (py_int (digits4 d1 d2 d3 d4) = Some y)
  && bool_decide (pretty y = digits4 d1 d2 d3 d4).

(** The same for two digits and [format(n, "02d")]. *)
Definition month_token_ok (d1 d2 : Z) : bool :=
  let m := 10 * d1 + d2 in
  bool_decide (py_int (digits2 d1 d2) = Some m)
  && bool_decide (format_02d m = digits2 d1 d2).

(** ** Facts about the runtime model *)

Section sorted_facts.
Implicit Types (s : gset Z) (y : Z).

Lemma elem_of_sorted s y : y ∈ sorted s ↔ y ∈ s.
Proof.
  unfold sorted. rewrite merge_sort_Permutation. apply elem_of_elements.
Qed.

Lemma NoDup_sorted s : NoDup (sorted s).
Proof.
  unfold sorted. rewrite merge_sort_Permutation. apply NoDup_elements.
Qed.

Lemma sorted_ascending s : StronglySorted Z.lt (sorted s).
Proof.
  assert (Hle : StronglySorted Z.le (sorted s)).
  { apply Sorted_StronglySorted; [intros ???; lia|].
    apply (Sorted_merge_sort Z.le). }
  pose proof (NoDup_sorted s) as Hnd.
  induction Hle as [|x l Hl IH Hx]; [constructor|].
  apply NoDup_cons in Hnd as [Hnotin Hnd].
  constructor; [by apply IH|].
  apply Forall_forall. intros z Hz.
  rewrite Forall_forall in Hx. specialize (Hx z Hz).
  assert (x ≠ z) by (intros ->; done). lia.
Qed.

Lemma sorted_empty_iff s : sorted s = [] ↔ s = ∅.
Proof.
  split.
  - intros Hs. apply set_eq. intros y.
    rewrite <- elem_of_sorted, Hs. set_solver.
  - intros ->. reflexivity.
Qed.
End sorted_facts.

(** ** The annual compounder *)

Section compounder.
Implicit Types (df : list Row) (col : column) (y : Z) (need : nat).

(** The years of the frame are the keys of the groups. *)
Lemma elem_of_group_years df y :
  y ∈ sorted (list_to_set (year <$> df)) ↔ group_of df y ≠ [].
Proof.
  rewrite elem_of_sorted, elem_of_list_to_set, list_elem_of_fmap.
  unfold group_of. split.
  - intros (r & -> & Hr) Hnil.
    assert (r ∈ filter (λ r0, year r0 = year r) df) as Hin
      by (apply list_elem_of_filter; done).
    rewrite Hnil in Hin. by apply not_elem_of_nil in Hin.
  - intros Hne. destruct (filter _ df) as [|r l] eqn:Hf; [done|].
    assert (r ∈ filter (λ r0, year r0 = y) df) as Hin
      by (rewrite Hf; left).
    apply list_elem_of_filter in Hin as [Hy Hin]. eauto.
Qed.

(** One step of the loop over the groups, read at a key. *)
Lemma annual_fold_lookup need df col (ys : list Z)
    (annual : gmap Z float64) y :
  foldl (λ annual '(y, group),
           if (length group <? need)%nat then annual
           else <[y := annual_return (col_value col <$> group)]> annual)
        annual ((λ y, (y, group_of df y)) <$> ys) !! y
  = if bool_decide (y ∈ ys) && negb (length (group_of df y) <? need)%nat
    then Some (annual_return (col_value col <$> group_of df y))
    else annual !! y.
Proof.
  revert annual. induction ys as [|z ys IH]; intros annual; simpl.
  - reflexivity.
  - rewrite IH. clear IH.
    destruct (decide (y = z)) as [->|Hne].
    + rewrite (bool_decide_true (z ∈ z :: ys)) by left.
      destruct (length (group_of df z) <? need)%nat eqn:Hlen; simpl.
      * by rewrite andb_false_r.
      * rewrite andb_true_r, lookup_insert_eq. by case_bool_decide.
    + assert (bool_decide (y ∈ z :: ys) = bool_decide (y ∈ ys)) as ->.
      { apply bool_decide_ext. rewrite elem_of_cons. tauto. }
      destruct (bool_decide (y ∈ ys) && _); [done|].
      destruct (length (group_of df z) <? need)%nat; [done|].
      by rewrite lookup_insert_ne.
Qed.

(** What the compounder holds at a year, for a threshold of at least
    one month. *)
Lemma monthly_to_annual_with_lookup need df col y :
  (0 < need)%nat →
  monthly_to_annual_with need df col !! y
  = if (length (group_of df y) <? need)%nat then None
    else Some (annual_return (col_value col <$> group_of df y)).
Proof.
  intros Hneed. unfold monthly_to_annual_with, groupby_year.
  rewrite annual_fold_lookup, lookup_empty.
  case_bool_decide as Hin; simpl; [by destruct (_ <? _)%nat|].
  rewrite elem_of_group_years in Hin.
  destruct (group_of df y); [|by destruct Hin].
  simpl. by destruct need; [lia|].
Qed.

Lemma monthly_to_annual_lookup df col y :
  monthly_to_annual df col !! y
  = if (length (group_of df y) <? 11)%nat then None
    else Some (annual_return (col_value col <$> group_of df y)).
Proof. apply monthly_to_annual_with_lookup. lia. Qed.

(** The keys do not depend on the column. *)
Lemma elem_of_dom_monthly_to_annual df col y :
  y ∈ dom (monthly_to_annual df col) ↔ (11 <= length (group_of df y))%nat.
Proof.
  rewrite elem_of_dom, monthly_to_annual_lookup.
  destruct (Nat.ltb_spec (length (group_of df y)) 11).
  - split; [intros [? ?]; done|lia].
  - split; [lia|eauto].
Qed.

Lemma dom_monthly_to_annual df col col' :
  dom (monthly_to_annual df col) = dom (monthly_to_annual df col').
Proof.
  apply set_eq. intros y. by rewrite !elem_of_dom_monthly_to_annual.
Qed.
End compounder.

(** ** The table parser *)

Section parser.
Implicit Types (line : string) (lines : list string) (i s : nat).

(** Once found, the start index is kept. *)
Lemma scan_lines_started i lines s :
  (scan_lines i lines (Some s)).1 = Some s.
Proof.
  revert i. induction lines as [|line rest IH]; intros i; simpl; [done|].
  rewrite andb_false_r.
  destruct (truthy (Some s) && is_end_line line && _); [done|apply IH].
Qed.

(** The start index is the index of the first start line. *)
Lemma scan_lines_start i lines :
  (scan_lines i lines None).1
  = (λ p, (i + p.1)%nat) <$> list_find (λ line, is_start_line line) lines.
Proof.
  revert i. induction lines as [|line rest IH]; intros i; simpl; [done|].
  rewrite andb_true_r.
  destruct (is_start_line line) eqn:Hstart; simpl.
  - rewrite Nat.add_0_r.
    destruct (_ && is_end_line line && _); [done|].
    apply scan_lines_started.
  - rewrite IH.
    destruct (list_find _ rest) as [[k l]|]; simpl; [|done].
    f_equal. lia.
Qed.

Lemma scan_lines_no_start lines :
  (scan_lines 0 lines None).1 = None
  ↔ ∀ line, line ∈ lines → is_start_line line = false.
Proof.
  rewrite scan_lines_start, fmap_None, list_find_None, Forall_forall.
  apply forall_proper. intros line.
  destruct (is_start_line line); naive_solver.
Qed.

(** The end index, once the start is known: with a start index that
    Python takes as true, the first end line at an index above
    [s + 10]; with start index 0 the test never passes. *)
Lemma scan_lines_end_started i lines s :
  (scan_lines i lines (Some s)).2
  = if truthy (Some s)
    then (λ p, (i + (s + 11 - i) + p.1)%nat)
           <$> list_find (λ line, is_end_line line)
                 (drop (s + 11 - i) lines)
    else None.
Proof.
  revert i. induction lines as [|line rest IH]; intros i; simpl.
  - destruct s; [done|]. by rewrite drop_nil.
  - rewrite andb_false_r.
    destruct s as [|s']; simpl; [apply (IH (S i))|].
    destruct (Nat.ltb_spec (S (s' + 10)) i) as [Hlt|Hge].
    + replace (S (s' + 11) - i)%nat with 0%nat by lia. simpl.
      destruct (is_end_line line) eqn:Hend; simpl.
      * f_equal. lia.
      * rewrite (IH (S i)). simpl.
        replace (s' + 11 - i)%nat with 0%nat by lia. rewrite drop_0.
        destruct (list_find _ rest) as [[k l]|]; simpl; [|done].
        f_equal. lia.
    + rewrite andb_false_r, (IH (S i)). simpl.
      replace (S (s' + 11) - i)%nat with (S (s' + 11 - i)) by lia. simpl.
      destruct (list_find _ _) as [[k l]|]; simpl; [|done].
      f_equal. lia.
Qed.

(** The two indices the loop leaves behind. *)
Lemma scan_lines_spec lines :
  scan_lines 0 lines None
  = match list_find (λ line, is_start_line line) lines with
    | None => (None, None)
    | Some (s, _) =>
        (Some s,
         if truthy (Some s)
         then (λ p, (s + 11 + p.1)%nat)
                <$> list_find (λ line, is_end_line line)
                      (drop (s + 11) lines)
         else None)
    end.
Proof.
  assert (Hgen : ∀ i,
    scan_lines i lines None
    = match list_find (λ line, is_start_line line) lines with
      | None => (None, None)
      | Some (p, _) =>
          (Some (i + p)%nat,
           if truthy (Some (i + p)%nat)
           then (λ q, (i + p + 11 + q.1)%nat)
                  <$> list_find (λ line, is_end_line line)
                        (drop (p + 11) lines)
           else None)
      end).
  { induction lines as [|line rest IH]; intros i; simpl; [done|].
    rewrite andb_true_r.
    destruct (is_start_line line) eqn:Hstart; simpl.
    - assert ((i + 10 <? i)%nat = false) as -> by (apply Nat.ltb_ge; lia).
      rewrite andb_false_r, Nat.add_0_r.
      rewrite (surjective_pairing (scan_lines _ _ _)).
      rewrite scan_lines_started, scan_lines_end_started.
      replace (i + 11 - S i)%nat with 10%nat by lia.
      destruct i; simpl; [done|].
      clear IH. destruct (list_find _ _) as [[k l]|]; simpl; [|done].
      do 2 f_equal. lia.
    - rewrite (IH (S i)).
      destruct (list_find _ rest) as [[p l]|]; simpl; [|done].
      replace (i + S p)%nat with (S (i + p)) by lia. simpl.
      destruct (list_find _ (drop _ _)) as [[k l']|]; simpl; [|done].
      f_equal. }
  rewrite Hgen. destruct (list_find _ lines) as [[p l]|]; [|done].
  done.
Qed.
End parser.

(** ** The numerals the runtime accepts *)

Section numerals.
Implicit Types (s t d rest : string) (c : ascii) (acc v : Z) (n : nat).

Lemma append_cons c s t : String c s +:+ t = String c (s +:+ t).
Proof. reflexivity. Qed.

Lemma append_nil_l t : EmptyString +:+ t = t.
Proof. reflexivity. Qed.

Lemma append_nil_r s : s +:+ EmptyString = s.
Proof. induction s as [|c s IH]; [done|]. by rewrite append_cons, IH. Qed.

Lemma append_assoc s t u : (s +:+ t) +:+ u = s +:+ (t +:+ u).
Proof. induction s as [|c s IH]; [done|]. by rewrite !append_cons, IH. Qed.

Lemma digitpart_of_tail c t :
digitpart_of (String c t) ↔ is_Some (digit c) ∧ digits_tail t.
Proof.
split.
- remember (String c t) as s eqn:Hs. intros H. revert c t Hs.
  induction H as [c0 Hc|c0 s0 Hc H IH|c0 s0 Hc H IH]; intros c t [= <- <-].
  + split; [done|constructor].
  + destruct s0 as [|c1 s1]; [inversion H|].
    destruct (IH c1 s1 eq_refl) as [Hc1 Ht].
    split; [done|]. by constructor.
  + destruct s0 as [|c1 s1]; [inversion H|].
    destruct (IH c1 s1 eq_refl) as [Hc1 Ht].
    split; [done|]. by constructor.
- intros [Hc Ht]. revert c Hc.
  induction Ht as [|c1 s1 Hc1 Ht IH|c1 s1 Hc1 Ht IH]; intros c Hc.
  + by constructor.
  + apply digitpart_next; [done|]. by apply IH.
  + apply digitpart_underscore; [done|]. by apply IH.
Qed.

Lemma digitpart_of_nonempty s : digitpart_of s → s ≠ EmptyString.
Proof. by destruct 1. Qed.

(** [digitpart_go] takes the longest tail of a digit part and leaves a
  rest that does not go on with one. *)
Lemma digitpart_go_split (k : nat) s acc n :
(String.length s <= k)%nat →
∃ d rest v n',
  digitpart_go acc n s = (v, n', rest)
  ∧ s = d +:+ rest ∧ digits_tail d ∧ continues rest = false.
Proof.
revert s acc n. induction k as [|k IH]; intros s acc n Hlen.
{ destruct s; simpl in *; [|lia].
  exists EmptyString, EmptyString, acc, n. repeat split. constructor. }
destruct s as [|c s]; simpl.
{ exists EmptyString, EmptyString, acc, n. repeat split. constructor. }
simpl in Hlen.
destruct (digit c) as [dv|] eqn:Hc.
- destruct (IH s (10 * acc + dv) (S n)) as (d & rest & v & n' & Hgo & -> & Hd & Hrest);
    [lia|].
  exists (String c d), rest, v, n'. repeat split; [done| |done].
  constructor; [by rewrite Hc|done].
- destruct (Ascii.eqb c "_") eqn:Hund.
  2:{ exists EmptyString, (String c s), acc, n. repeat split; [constructor|].
      simpl. by rewrite Hc, Hund. }
  apply Ascii.eqb_eq in Hund as ->.
  destruct s as [|c2 s2].
  { exists EmptyString, (String "_" EmptyString), acc, n.
    repeat split. constructor. }
  destruct (digit c2) as [dv|] eqn:Hc2.
  + simpl in Hlen.
    destruct (IH s2 (10 * acc + dv) (S n)) as (d & rest & v & n' & Hgo & -> & Hd & Hrest);
      [lia|].
    exists (String "_" (String c2 d)), rest, v, n'.
    repeat split; [done| |done].
    constructor; [by rewrite Hc2|done].
  + exists EmptyString, (String "_" (String c2 s2)), acc, n.
    repeat split; [constructor|].
    simpl. rewrite Hc2. by rewrite bool_decide_false by (by intros [? ?]).
Qed.

(** Conversely, a tail followed by such a rest is taken whole. *)
Lemma digitpart_go_tail d rest acc n :
digits_tail d → continues rest = false →
∃ v n', digitpart_go acc n (d +:+ rest) = (v, n', rest).
Proof.
intros Hd Hrest. revert acc n.
induction Hd as [|c s [dv Hc] Hs IH|c s [dv Hc] Hs IH]; intros acc n.
- rewrite append_nil_l. exists acc, n.
  destruct rest as [|c r]; [done|]. simpl in *.
  destruct (digit c); [done|].
  destruct (Ascii.eqb c "_"); [|done]. simpl in Hrest.
  destruct r as [|c2 r2]; [done|].
  destruct (digit c2); [|done].
  by rewrite bool_decide_true in Hrest by eauto.
- rewrite append_cons. simpl. rewrite Hc. apply IH.
- rewrite !append_cons. simpl. rewrite Hc. apply IH.
Qed.

Lemma digitpart_split s v n rest :
digitpart s = Some (v, n, rest) →
∃ d, s = d +:+ rest ∧ digitpart_of d ∧ continues rest = false.
Proof.
unfold digitpart. destruct s as [|c s]; [done|].
destruct (digit c) as [dv|] eqn:Hc; [|done]. intros [= Hgo].
destruct (digitpart_go_split (String.length s) s dv 1 (le_n _))
  as (d & rest' & v' & n' & Hgo' & -> & Hd & Hrest).
rewrite Hgo in Hgo'. injection Hgo' as <- <- <-.
exists (String c d). split; [done|]. split; [|done].
apply digitpart_of_tail. split; [by rewrite Hc|done].
Qed.

Lemma digitpart_whole d rest :
digitpart_of d → continues rest = false →
∃ v n, digitpart (d +:+ rest) = Some (v, n, rest).
Proof.
intros Hd Hrest. destruct d as [|c t]; [by apply digitpart_of_nonempty in Hd|].
apply digitpart_of_tail in Hd as [[dv Hc] Ht].
rewrite append_cons. unfold digitpart. rewrite Hc.
destruct (digitpart_go_tail t rest dv 1 Ht Hrest) as (v & n & ->). eauto.
Qed.

Lemma digitpart_None s : digitpart s = None → ¬ ∃ d rest, s = d +:+ rest ∧ digitpart_of d.
Proof.
intros Hnone (d & rest & -> & Hd).
destruct d as [|c t]; [by apply digitpart_of_nonempty in Hd|].
apply digitpart_of_tail in Hd as [[dv Hc] _].
rewrite append_cons in Hnone. unfold digitpart in Hnone. by rewrite Hc in Hnone.
Qed.

(** [digitpart] reads a string to its end exactly when it is a digit
  part. *)
Lemma digitpart_all s :
(∃ v n, digitpart s = Some (v, n, EmptyString)) ↔ digitpart_of s.
Proof.
split.
- intros (v & n & (d & -> & Hd & _)%digitpart_split).
  by rewrite append_nil_r.
- intros Hd. destruct (digitpart_whole s EmptyString Hd eq_refl) as (v & n & H).
  rewrite append_nil_r in H. eauto.
Qed.

(** The sign the parser takes off is the sign of [signed]. *)
Lemma signed_sign (body : string → Prop) s :
(∀ t, body t → match t with
               | String c _ => c ≠ "+"%char ∧ c ≠ "-"%char
               | EmptyString => True
               end) →
signed body s ↔ body (sign s).2.
Proof.
intros Hbody. unfold signed, sign.
destruct s as [|c t]; simpl.
- split; [intros [H|(t & [?|?] & _)]; done|by left].
- destruct (ascii_dec c "-") as [->|Hm]; simpl.
  { split.
    - intros [H1%Hbody|(t' & [[= ]|[= <-]] & H2)]; [by destruct H1|done].
    - intros H. right. exists t. split; [by right|done]. }
  destruct (ascii_dec c "+") as [->|Hp]; simpl.
  { split.
    - intros [H1%Hbody|(t' & [[= <-]|[= ]] & H2)]; [by destruct H1|done].
    - intros H. right. exists t. split; [by left|done]. }
  assert (match c with
          | "-"%char => (true, t) | "+"%char => (false, t)
          | _ => (false, String c t) end = (false, String c t)) as ->.
  { destruct c as [[] [] [] [] [] [] [] []]; done. }
  simpl. split; [|by left].
  intros [H|(t' & [[= -> _]|[= -> _]] & _)]; done.
Qed.

Lemma digitpart_of_no_sign t :
digitpart_of t →
match t with
| String c _ => c ≠ "+"%char ∧ c ≠ "-"%char
| EmptyString => True
end.
Proof.
destruct t as [|c t]; [done|].
intros [[dv Hc] _]%digitpart_of_tail.
split; intros ->; done.
Qed.

(** [int] accepts exactly the numerals of the grammar. *)
Lemma py_int_is_Some s : is_Some (py_int s) ↔ int_numeral s.
Proof.
unfold int_numeral. rewrite (signed_sign _ _ digitpart_of_no_sign).
rewrite <- digitpart_all. unfold py_int.
destruct (sign (skip_blanks s)) as [neg s1]. simpl.
destruct (digitpart s1) as [[[v n] rest]|]; [|split; [by intros [? ?]|by intros (? & ? & ?)]].
destruct rest; split; eauto; [by intros [? ?]|by intros (? & ? & ?)].
Qed.
End numerals.

Section float_numerals.
Implicit Types (s t d rest : string) (c : ascii).

Lemma ends_number_continues rest : ends_number rest → continues rest = false.
Proof. intros [->|(c & t & -> & [->| ->])]; reflexivity. Qed.

Lemma ends_number_digitpart rest : ends_number rest → digitpart rest = None.
Proof. intros [->|(c & t & -> & [->| ->])]; reflexivity. Qed.

Lemma ends_number_not_point rest t : ends_number rest → rest ≠ String "." t.
Proof. intros [->|(c & t' & -> & [->| ->])]; done. Qed.

(** The match of [number] on the rest of the integer part. *)
Lemma number_no_point s ip n rest :
digitpart s = Some (ip, n, rest) →
(∀ t, rest ≠ String "." t) →
number s = Some (ip, 0%nat, rest).
Proof.
intros Hs Hrest. unfold number. rewrite Hs.
destruct rest as [|c t]; [done|].
destruct (ascii_dec c ".") as [->|Hc]; [by destruct (Hrest t)|].
destruct c as [[] [] [] [] [] [] [] []]; done.
Qed.

Lemma number_split s m fn rest :
number s = Some (m, fn, rest) →
∃ d, s = d +:+ rest ∧ number_of d.
Proof.
unfold number.
destruct (digitpart s) as [[[ip n] r]|] eqn:Hs.
- apply digitpart_split in Hs as (d0 & -> & Hd0 & _).
  assert (Hplain : Some (ip, 0%nat, r) = Some (m, fn, rest) →
            ∃ d, d0 +:+ r = d +:+ rest ∧ number_of d).
  { intros [= _ _ <-]. exists d0. split; [done|]. by left. }
  destruct r as [|c s1]; [done|].
  destruct (ascii_dec c ".") as [->|Hc].
  2:{ destruct c as [[] [] [] [] [] [] [] []]; done. }
  destruct (digitpart s1) as [[[fp fn'] rest']|] eqn:Hs1.
  + apply digitpart_split in Hs1 as (d1 & -> & Hd1 & _).
    intros [= _ _ <-]. exists (d0 +:+ "." +:+ d1). split.
    * by rewrite !append_assoc.
    * right. right. left. by exists d0, d1.
  + intros [= _ _ <-]. exists (d0 +:+ "."). split.
    * by rewrite append_assoc.
    * right. left. by exists d0.
- destruct s as [|c s1]; [done|].
  destruct (ascii_dec c ".") as [->|Hc].
  2:{ destruct c as [[] [] [] [] [] [] [] []]; done. }
  destruct (digitpart s1) as [[[fp fn'] rest']|] eqn:Hs1; [|done].
  apply digitpart_split in Hs1 as (d1 & -> & Hd1 & _).
  intros [= _ _ <-]. exists ("." +:+ d1). split; [done|].
  right. right. right. by exists d1.
Qed.

Lemma number_whole d rest :
number_of d → ends_number rest →
∃ m fn, number (d +:+ rest) = Some (m, fn, rest).
Proof.
intros Hd Hrest.
pose proof (ends_number_continues rest Hrest) as Hcont.
pose proof (ends_number_digitpart rest Hrest) as Hnone.
destruct Hd as [Hd|[(ip & Hip & ->)|[(ip & fp & Hip & Hfp & ->)|(fp & Hfp & ->)]]].
- destruct (digitpart_whole d rest Hd Hcont) as (v & n & Hdp).
  exists v, 0%nat. apply (number_no_point _ _ n); [done|].
  intros t. by apply ends_number_not_point.
- rewrite append_assoc.
  destruct (digitpart_whole ip ("." +:+ rest) Hip eq_refl) as (v & n & Hdp).
  exists v, 0%nat. unfold number. rewrite Hdp.
  change ("." +:+ rest) with (String "." rest). cbv beta iota.
  by rewrite Hnone.
- rewrite !append_assoc.
  destruct (digitpart_whole ip ("." +:+ fp +:+ rest) Hip eq_refl)
    as (v & n & Hdp).
  destruct (digitpart_whole fp rest Hfp Hcont) as (fv & fn & Hfdp).
  unfold number. rewrite Hdp.
  change ("." +:+ fp +:+ rest) with (String "." (fp +:+ rest)).
  cbv beta iota. rewrite Hfdp. eauto.
- rewrite append_assoc.
  change ("." +:+ fp +:+ rest) with (String "." (fp +:+ rest)).
  destruct (digitpart_whole fp rest Hfp Hcont) as (fv & fn & Hfdp).
  unfold number.
  change (digitpart (String "." (fp +:+ rest))) with (@None (Z * nat * string)).
  cbv beta iota. rewrite Hfdp. eauto.
Qed.

Lemma exponent_all s :
(∃ e, exponent s = Some (e, EmptyString))
↔ s = EmptyString ∨ exponent_of s.
Proof.
unfold exponent, exponent_of. destruct s as [|c s1].
{ split; [by left|eauto]. }
split.
- intros [e He]. right. exists c, s1. split; [done|].
  destruct (Ascii.eqb c "e" || Ascii.eqb c "E") eqn:Hc; [|done].
  split.
  { apply orb_prop in Hc as [?%Ascii.eqb_eq|?%Ascii.eqb_eq]; auto. }
  apply (signed_sign _ _ digitpart_of_no_sign), digitpart_all.
  destruct (sign s1) as [neg s2]. simpl.
  destruct (digitpart s2) as [[[v n] rest]|]; [|done].
  injection He as _ ->. eauto.
- intros [?|(c' & t' & [= <- <-] & Hc & Hsigned)]; [done|].
  apply (signed_sign _ _ digitpart_of_no_sign), digitpart_all in Hsigned
    as (v & n & Hdp).
  assert (Ascii.eqb c "e" || Ascii.eqb c "E" = true) as ->.
  { destruct Hc as [->| ->]; reflexivity. }
  destruct (sign s1) as [neg s2]. simpl in Hdp. rewrite Hdp. eauto.
Qed.

Lemma exponent_of_ends_number x : exponent_of x → ends_number x.
Proof. intros (c & t & -> & Hc & _). right. eauto. Qed.

Lemma number_of_first d :
number_of d →
∃ c t, d = String c t ∧ (is_Some (digit c) ∨ c = "."%char).
Proof.
assert (Hdp : ∀ u, digitpart_of u → ∃ c t, u = String c t ∧ is_Some (digit c)).
{ intros [|c t] Hu; [by apply digitpart_of_nonempty in Hu|].
  apply digitpart_of_tail in Hu as [Hc _]. eauto. }
intros [Hd|[(ip & Hip & ->)|[(ip & fp & Hip & Hfp & ->)|(fp & Hfp & ->)]]].
- destruct (Hdp d Hd) as (c & t & -> & Hc). eauto.
- destruct (Hdp ip Hip) as (c & t & -> & Hc). rewrite append_cons. eauto.
- destruct (Hdp ip Hip) as (c & t & -> & Hc). rewrite append_cons. eauto.
- exists "."%char, fp. eauto.
Qed.

Lemma absfloat_of_no_sign t :
absfloat_of t →
match t with
| String c _ => c ≠ "+"%char ∧ c ≠ "-"%char
| EmptyString => True
end.
Proof.
destruct t as [|c t]; [done|].
assert (Hword : ∀ w : ascii, w ≠ "+"%char → w ≠ "-"%char →
          lower_char c = w → c ≠ "+"%char ∧ c ≠ "-"%char).
{ intros w Hp Hm <-. split; intros ->; by vm_compute in Hp, Hm. }
intros [Hw|[Hw|[Hw|Hf]]].
- injection Hw as Hc _. by apply (Hword "i"%char).
- injection Hw as Hc _. by apply (Hword "i"%char).
- injection Hw as Hc _. by apply (Hword "n"%char).
- assert (∃ c' t', String c t = String c' t'
            ∧ (is_Some (digit c') ∨ c' = "."%char)) as (c' & t' & [= <- <-] & Hc).
  { destruct Hf as [Hn|(m & x & Hn & _ & ->)].
    - by apply number_of_first.
    - apply number_of_first in Hn as (c' & t' & -> & Hc).
      rewrite append_cons. eauto. }
  destruct Hc as [[dv Hd]|Hpt]; split; intros Heq;
    rewrite Heq in *; done.
Qed.

(** [float] accepts exactly the numerals of the grammar. *)
Lemma py_float_is_Some s : is_Some (py_float s) ↔ float_numeral s.
Proof.
unfold py_float, float_numeral. rewrite fmap_is_Some.
rewrite (signed_sign _ _ absfloat_of_no_sign).
unfold float_lit. destruct (sign (skip_blanks s)) as [neg s1]. simpl.
unfold absfloat_of.
destruct (String.eqb_spec (lower s1) "inf") as [Hinf|Hinf];
  [simpl; split; eauto|].
destruct (String.eqb_spec (lower s1) "infinity") as [Hinfinity|Hinfinity];
  [simpl; split; eauto|].
destruct (String.eqb_spec (lower s1) "nan") as [Hnan|Hnan];
  [simpl; split; eauto|].
simpl. split.
- intros [l Hl]. do 3 right.
  destruct (number s1) as [[[m fn] s2]|] eqn:Hnum; [|done].
  apply number_split in Hnum as (d & -> & Hd).
  destruct (exponent s2) as [[e rest]|] eqn:Hexp; [|done].
  destruct rest; [|done].
  destruct (proj1 (exponent_all s2) (ex_intro _ e Hexp)) as [->|Hx].
  + left. by rewrite append_nil_r.
  + right. by exists d, s2.
- intros [?|[?|[?|Hf]]]; [done..|].
  destruct Hf as [Hn|(m & x & Hn & Hx & ->)].
  + destruct (number_whole s1 EmptyString Hn) as (m & fn & Hnum); [by left|].
    rewrite append_nil_r in Hnum. rewrite Hnum. simpl. eauto.
  + destruct (number_whole m x Hn (exponent_of_ends_number x Hx))
      as (mv & fn & Hnum).
    rewrite Hnum.
    destruct (proj2 (exponent_all x) (or_intror Hx)) as [e ->]. eauto.
Qed.
End float_numerals.

Section rows.
Implicit Types (line : string) (lines block : list string).

(** The code gives a record exactly for the accepted lines. *)
Lemma parse_line_is_Some line : is_Some (parse_line line) ↔ accepted_line line.
Proof.
unfold parse_line, accepted_line. cbv zeta.
set (parts := split comma (strip line)).
set (ym := strip (default EmptyString (parts !! 0%nat))).
rewrite <- !py_int_is_Some. setoid_rewrite <- py_float_is_Some.
destruct (Nat.leb_spec 5 (length parts)) as [Hlen|Hlen].
2:{ split; [by intros [? ?]|]. intros [? _]. lia. }
destruct (Nat.eqb_spec (len ym) 6) as [Hym|Hym]; simpl.
2:{ split; [by intros [? ?]|]. intros (_ & ? & _). done. }
split.
- intros [r Hr].
  destruct (py_int (slice 0 4 ym)) as [y|] eqn:Hy; [|done].
  destruct (py_int (slice 4 6 ym)) as [m|] eqn:Hm; [|done].
  simpl in Hr.
  destruct (py_float (strip (default _ (parts !! 1%nat)))) eqn:H1; [|done].
  destruct (py_float (strip (default _ (parts !! 2%nat)))) eqn:H2; [|done].
  destruct (py_float (strip (default _ (parts !! 3%nat)))) eqn:H3; [|done].
  destruct (py_float (strip (default _ (parts !! 4%nat)))) eqn:H4; [|done].
  repeat split; eauto.
  intros k Hk.
  assert (k = 1 ∨ k = 2 ∨ k = 3 ∨ k = 4)%nat as [-> | [-> | [-> | ->]]] by lia;
    rewrite ?H1, ?H2, ?H3, ?H4; eauto.
- intros (_ & _ & [y Hy] & [m Hm] & Hk).
  destruct (Hk 1%nat ltac:(lia)) as [a Ha].
  destruct (Hk 2%nat ltac:(lia)) as [b Hb].
  destruct (Hk 3%nat ltac:(lia)) as [c Hc].
  destruct (Hk 4%nat ltac:(lia)) as [d Hd].
  rewrite Hy, Hm. simpl. rewrite Ha, Hb, Hc, Hd. simpl. eauto.
Qed.

Lemma parse_line_None line : parse_line line = None ↔ ¬ accepted_line line.
Proof.
  rewrite <- parse_line_is_Some, eq_None_not_Some. done.
Qed.

(** The year and month of an accepted row are read off its date token. *)
Lemma parse_line_date line r :
  parse_line line = Some r →
  py_int (slice 0 4 (ym_token line)) = Some (year r) ∧
  py_int (slice 4 6 (ym_token line)) = Some (month r).
Proof.
  unfold parse_line, ym_token. cbv zeta.
  set (parts := split comma (strip line)).
  set (ym := strip (default EmptyString (parts !! 0%nat))).
  destruct (5 <=? length parts)%nat; [|done].
  destruct (negb _); [done|].
  destruct (py_int (slice 0 4 ym)) as [y|]; simpl; [|done].
  destruct (py_int (slice 4 6 ym)) as [m|]; simpl; [|done].
  destruct (py_float (strip (default _ (parts !! 1%nat)))); simpl; [|done].
  destruct (py_float (strip (default _ (parts !! 2%nat)))); simpl; [|done].
  destruct (py_float (strip (default _ (parts !! 3%nat)))); simpl; [|done].
  destruct (py_float (strip (default _ (parts !! 4%nat)))); simpl; [|done].
  by intros [= <-].
Qed.

Lemma parse_rows_app block1 block2 :
  parse_rows (block1 ++ block2) = parse_rows block1 ++ parse_rows block2.
Proof. apply omap_app. Qed.

Lemma parse_rows_cons_Some line r block :
  parse_line line = Some r → parse_rows (line :: block) = r :: parse_rows block.
Proof. unfold parse_rows. simpl. by intros ->. Qed.

Lemma parse_rows_cons_None line block :
  parse_line line = None → parse_rows (line :: block) = parse_rows block.
Proof. unfold parse_rows. simpl. by intros ->. Qed.

(** Every accepted row gives one record. *)
Lemma parse_rows_accepted block :
  Forall accepted_line block → length (parse_rows block) = length block.
Proof.
  induction 1 as [|line block Hwf _ IH]; [done|].
  apply parse_line_is_Some in Hwf as [r Hr].
  rewrite (parse_rows_cons_Some _ _ _ Hr). simpl. by rewrite IH.
Qed.

(** The function returns the parsed block whenever a start line exists
    and at least one row of the block is accepted. *)
Lemma download_french_factors_Ok raw s e :
  scan_lines 0 (split newline raw) None = (Some s, e) →
  parse_rows (block_of (split newline raw) s e) ≠ [] →
  download_french_factors raw
  = Ok (parse_rows (block_of (split newline raw) s e)).
Proof.
  intros Hscan Hne. unfold download_french_factors. cbv zeta.
  rewrite Hscan. by destruct (parse_rows _).
Qed.

Lemma download_french_factors_inv raw ff :
  download_french_factors raw = Ok ff →
  ff ≠ [] ∧
  ∃ s e, scan_lines 0 (split newline raw) None = (Some s, e) ∧
         ff = parse_rows (block_of (split newline raw) s e).
Proof.
  unfold download_french_factors. cbv zeta.
  destruct (scan_lines _ _ _) as [[s|] e]; [|done].
  destruct (parse_rows _) as [|r l] eqn:Hrows; [done|].
  intros [= <-]. split; [done|]. by exists s, e.
Qed.
End rows.

(** ** The pipeline *)

Section pipeline.
Implicit Types (now raw : string) (ff : list Row) (data : Dataset).

(** The three compounded series have the same years, so that the
    intersection [main] takes is the one over all five series. *)
Lemma all_years_of_five ff :
  all_years_of (monthly_to_annual ff Col_mkt_total)
               get_bond_returns get_inflation
  = sorted (dom (monthly_to_annual ff Col_mkt_total)
            ∩ dom (monthly_to_annual ff Col_small_total)
            ∩ dom get_bond_returns
            ∩ dom (monthly_to_annual ff Col_tbill)
            ∩ dom get_inflation).
Proof.
  unfold all_years_of. f_equal.
  rewrite (dom_monthly_to_annual ff Col_small_total Col_mkt_total).
  rewrite (dom_monthly_to_annual ff Col_tbill Col_mkt_total).
  apply set_eq. intros y. rewrite !elem_of_intersection. tauto.
Qed.

(** A lookup on the common axis always succeeds. *)
Lemma summary_stats_aligned (series : gmap Z float64) (all_years : list Z) :
  all_years ≠ [] →
  (∀ y, y ∈ all_years → y ∈ dom series) →
  omap id (aligned series all_years) ≠ [].
Proof.
  destruct all_years as [|y l]; [done|]. intros _ Hdom.
  assert (y ∈ dom series) as [v Hv]%elem_of_dom by (apply Hdom; left).
  unfold aligned. simpl. by rewrite Hv.
Qed.

(** What [build] returns when it returns. *)
Lemma build_Ok now raw data :
  build now raw = Ok data →
  ∃ ff,
    download_french_factors raw = Ok ff ∧
    let large := monthly_to_annual ff Col_mkt_total in
    let small := monthly_to_annual ff Col_small_total in
    let bills := monthly_to_annual ff Col_tbill in
    let all_years := all_years_of large get_bond_returns get_inflation in
    all_years ≠ [] ∧
    years data = all_years ∧
    dates (monthly data) = year_month <$> sort_values ff ∧
    stocks (monthly data)
      = (λ row, py_round (mkt_total row) 3) <$> sort_values ff ∧
    tbills (monthly data)
      = (λ row, py_round (tbill row) 3) <$> sort_values ff ∧
    (assets data).*1
      = ["large_stocks"; "small_stocks"; "lt_gov_bonds"; "tbills";
         "inflation"] ∧
    returns <$> (assets data).*2
      = [aligned large all_years; aligned small all_years;
         aligned get_bond_returns all_years; aligned bills all_years;
         aligned get_inflation all_years].
Proof.
  unfold build. destruct (download_french_factors raw) as [ff|e]; [|done].
  simpl. case_bool_decide as Hyears; [done|]. simpl.
  destruct (summary_stats _); [|done]. simpl.
  intros [= <-]. exists ff. simpl. done.
Qed.

(** With an empty axis, [build] stops at the "Year range" message. *)
Lemma build_empty_axis now raw ff :
  download_french_factors raw = Ok ff →
  all_years_of (monthly_to_annual ff Col_mkt_total)
               get_bond_returns get_inflation = [] →
  build now raw = Raise IndexError.
Proof.
  intros Hff Hyears. unfold build. rewrite Hff. simpl.
  by rewrite Hyears.
Qed.

(** With a year on the axis, [build] returns: the summary loop finds a
    value in every series. *)
Lemma build_nonempty_axis now raw ff :
  download_french_factors raw = Ok ff →
  all_years_of (monthly_to_annual ff Col_mkt_total)
               get_bond_returns get_inflation ≠ [] →
  ∃ data, build now raw = Ok data.
Proof.
  intros Hff Hyears. unfold build. rewrite Hff. simpl.
  rewrite bool_decide_false by done. simpl.
  set (all_years := all_years_of _ _ _) in *.
  assert (Hin : ∀ y, y ∈ all_years →
    y ∈ dom (monthly_to_annual ff Col_mkt_total)
    ∧ y ∈ dom get_bond_returns ∧ y ∈ dom get_inflation).
  { intros y. unfold all_years, all_years_of.
    rewrite elem_of_sorted, !elem_of_intersection. tauto. }
  unfold summary_stats. simpl.
  rewrite !bool_decide_false; [simpl; eauto|..];
    apply summary_stats_aligned; try done; intros y Hy;
    try rewrite (dom_monthly_to_annual ff _ Col_mkt_total);
    apply Hin in Hy; tauto.
Qed.

(** The sort keeps every row. *)
Lemma insert_row_Permutation r (l : list Row) : insert_row r l ≡ₚ r :: l.
Proof.
  induction l as [|x l IH]; simpl; [done|].
  destruct (row_le r x); [done|]. by rewrite IH, Permutation_swap.
Qed.

Lemma sort_values_Permutation ff : sort_values ff ≡ₚ ff.
Proof.
  induction ff as [|r ff IH]; simpl; [done|].
  by rewrite insert_row_Permutation, IH.
Qed.
End pipeline.

(** ** The properties the specification states *)

(** C1. The year axis of the document is the sorted intersection of the
    years of all five annual series: large stocks, small stocks, bonds,
    bills and inflation. It is strictly ascending, and a year is on it
    exactly when each of the five series has that year. *)
Theorem year_axis_is_intersection (now raw : string) (ff : list Row)
    (data : Dataset) :
  download_french_factors raw = Ok ff →
  build now raw = Ok data →
  let large := monthly_to_annual ff Col_mkt_total in
  let small := monthly_to_annual ff Col_small_total in
  let bills := monthly_to_annual ff Col_tbill in
  years data
    = sorted (dom large ∩ dom small ∩ dom get_bond_returns
              ∩ dom bills ∩ dom get_inflation)
  ∧ StronglySorted Z.lt (years data)
  ∧ ∀ y, y ∈ years data ↔
         y ∈ dom large ∧ y ∈ dom small ∧ y ∈ dom get_bond_returns
         ∧ y ∈ dom bills ∧ y ∈ dom get_inflation.
Proof.
  intros Hff Hbuild. cbv zeta.
  apply build_Ok in Hbuild as (ff' & Hff' & Hdata).
  rewrite Hff in Hff'. injection Hff' as <-.
  destruct Hdata as (_ & Hyears & _).
  rewrite Hyears, all_years_of_five.
  split; [done|]. split; [apply sorted_ascending|].
  intros y. rewrite elem_of_sorted, !elem_of_intersection. tauto.
Qed.

Lemma year_axis_is_intersection_witness :
  download_french_factors sample_raw = Ok sample_ff
  ∧ build sample_now sample_raw = Ok sample_data
  ∧ years sample_data = [1927]
  ∧ years sample_data
    = sorted (dom (monthly_to_annual sample_ff Col_mkt_total)
              ∩ dom (monthly_to_annual sample_ff Col_small_total)
              ∩ dom get_bond_returns
              ∩ dom (monthly_to_annual sample_ff Col_tbill)
              ∩ dom get_inflation).
Proof.
  assert (H1 : download_french_factors sample_raw = Ok sample_ff)
    by (vm_compute; reflexivity).
  assert (H2 : build sample_now sample_raw = Ok sample_data)
    by (vm_compute; reflexivity).
  split; [exact H1|]. split; [exact H2|]. split; [reflexivity|].
  exact (proj1 (year_axis_is_intersection _ _ _ _ H1 H2)).
Defined.

(** C3. The compounder has a year among its keys exactly when the frame
    has at least eleven rows of that year: eleven rows give an entry,
    ten or fewer give none. *)
Theorem coverage_rule (df : list Row) (col : column) (y : Z) :
  (y ∈ dom (monthly_to_annual df col) ↔ (11 <= length (group_of df y))%nat)
  ∧ (length (group_of df y) = 11%nat →
     is_Some (monthly_to_annual df col !! y))
  ∧ ((length (group_of df y) <= 10)%nat →
     monthly_to_annual df col !! y = None).
Proof.
  split; [apply elem_of_dom_monthly_to_annual|].
  rewrite monthly_to_annual_lookup. split.
  - intros ->. simpl. eauto.
  - intros Hlen. by rewrite (proj2 (Nat.ltb_lt _ 11)) by lia.
Qed.

(** The two boundary values on sample frames. *)
Example coverage_eleven_months :
  length (group_of tie_year 1927) = 11%nat
  ∧ is_Some (monthly_to_annual tie_year Col_tbill !! 1927).
Proof. split; [reflexivity|]. vm_compute. eauto. Qed.

Example coverage_ten_months :
  length (group_of (parse_rows ten_months) 1927) = 10%nat
  ∧ monthly_to_annual (parse_rows ten_months) Col_tbill !! 1927 = None.
Proof. split; vm_compute; reflexivity. Qed.

(** C8. In a document that [main] writes, the [returns] of each of the
    five assets are as many as the [years], and the three monthly arrays
    have one length. *)
Theorem shape_invariant (now raw : string) (file : option Dataset)
    (data : Dataset) :
  main now raw file = (Ok tt, Some data) →
  (assets data).*1
    = ["large_stocks"; "small_stocks"; "lt_gov_bonds"; "tbills"; "inflation"]
  ∧ Forall (λ a, length (returns a.2) = length (years data)) (assets data)
  ∧ length (dates (monthly data)) = length (stocks (monthly data))
  ∧ length (stocks (monthly data)) = length (tbills (monthly data)).
Proof.
  unfold main. destruct (build now raw) as [d|e] eqn:Hbuild; [|done].
  intros [= ->].
  apply build_Ok in Hbuild
    as (ff & _ & _ & Hy & Hd & Hs & Ht & Hkeys & Hrets).
  split; [done|]. split.
  - assert (Hall : Forall (λ l : list (option float64),
                            length l = length (years data))
                     (returns <$> (assets data).*2)).
    { rewrite Hrets, Hy. unfold aligned.
      repeat constructor; apply length_fmap. }
    rewrite <- list_fmap_compose in Hall.
    rewrite Forall_fmap in Hall. exact Hall.
  - rewrite Hd, Hs, Ht, !length_fmap. done.
Qed.

Lemma shape_invariant_witness :
  main sample_now sample_raw None = (Ok tt, Some sample_data)
  ∧ Forall (λ a, length (returns a.2) = length (years sample_data))
      (assets sample_data)
  ∧ length (dates (monthly sample_data)) = 13%nat.
Proof.
  assert (H : main sample_now sample_raw None = (Ok tt, Some sample_data))
    by (vm_compute; reflexivity).
  split; [exact H|]. split; [|reflexivity].
  exact (proj1 (proj2 (shape_invariant _ _ _ _ H))).
Defined.

(** C9. When the five series share no year, [main] raises before it
    opens the output file, which is left as it was; and a document that
    [main] writes never has an empty year axis. *)
Theorem empty_axis_is_fatal (now raw : string) (file : option Dataset) :
  (∀ ff,
     download_french_factors raw = Ok ff →
     dom (monthly_to_annual ff Col_mkt_total)
       ∩ dom (monthly_to_annual ff Col_small_total)
       ∩ dom get_bond_returns
       ∩ dom (monthly_to_annual ff Col_tbill)
       ∩ dom get_inflation = ∅ →
     main now raw file = (Raise IndexError, file))
  ∧ (∀ data, main now raw file = (Ok tt, Some data) → years data ≠ []).
Proof.
  split.
  - intros ff Hff Hempty. unfold main.
    rewrite (build_empty_axis now raw ff Hff); [done|].
    rewrite all_years_of_five. by apply sorted_empty_iff.
  - intros data. unfold main.
    destruct (build now raw) as [d|e] eqn:Hbuild; [|done].
    intros [= ->].
    apply build_Ok in Hbuild as (ff & _ & Hne & Hy & _). by rewrite Hy.
Qed.

Lemma empty_axis_is_fatal_witness :
  main sample_now raw_half_year (Some sample_data)
  = (Raise IndexError, Some sample_data).
Proof.
  refine (proj1 (empty_axis_is_fatal sample_now raw_half_year
                   (Some sample_data))
            (parse_rows (take 6 sample_rows)) _ _).
  - vm_compute. reflexivity.
  - apply sorted_empty_iff. vm_compute. reflexivity.
Defined.

(** C2, as the code has it. For a year with at least eleven rows, the
    annual return is [round((cum - 1) * 100, 2)], where [cum] is the
    product of the factors [1 + r / 100] over the rows of that year in
    the order of the frame, every operation rounded to binary64 and the
    final rounding the runtime's (ties go to the even neighbour). For the
    monthly returns 10, -5 and 2 and a threshold of three months the
    result is 6.59. *)
Theorem annual_return_formula (df : list Row) (col : column) (y : Z) :
  (11 <= length (group_of df y))%nat →
  monthly_to_annual df col !! y
    = Some (np_round
              (fmul (fsub (compound (col_value col <$> group_of df y))
                          (of_Z 1))
                    (of_Z 100)) 2)
  ∧ compound (col_value col <$> group_of df y)
    = foldl (λ cum r, fmul cum (fadd (of_Z 1) (fdiv r (of_Z 100))))
            (lit "1.0") (col_value col <$> group_of df y)
  ∧ monthly_to_annual_with 3 three_months Col_tbill !! 1927
    = Some (lit "6.59").
Proof.
  intros Hlen. rewrite monthly_to_annual_lookup.
  rewrite (proj2 (Nat.ltb_ge _ 11)) by lia.
  split; [reflexivity|]. split; [reflexivity|].
  vm_compute. reflexivity.
Qed.

Lemma annual_return_formula_witness :
  (11 <= length (group_of sample_ff 1927))%nat
  ∧ monthly_to_annual sample_ff Col_tbill !! 1927
    = Some (np_round
              (fmul (fsub (compound (col_value Col_tbill
                                       <$> group_of sample_ff 1927))
                          (of_Z 1))
                    (of_Z 100)) 2).
Proof.
  assert (H : (11 <= length (group_of sample_ff 1927))%nat)
    by (vm_compute; lia).
  split; [exact H|].
  exact (proj1 (annual_return_formula sample_ff Col_tbill 1927 H)).
Defined.

(** The claim C2 fails as stated, twice. With the returns 10, -5 and 2
    and a threshold of three months the compounder gives 6.59 and not
    6.60. And a year that compounds to exactly 128.125 percent is rounded
    to 128.12, where rounding half away from zero gives 128.13. *)
Lemma annual_return_counterexample :
  (col_value Col_tbill <$> three_months = [lit "10"; lit "-5"; lit "2"]
   ∧ monthly_to_annual_with 3 three_months Col_tbill !! 1927
     = Some (lit "6.59")
   ∧ monthly_to_annual_with 3 three_months Col_tbill !! 1927
     ≠ Some (lit "6.60"))
  ∧ ((11 <= length (group_of tie_year 1927))%nat
     ∧ fmul (fsub (compound (col_value Col_tbill <$> group_of tie_year 1927))
                  (of_Z 1))
            (of_Z 100)
       = lit "128.125"
     ∧ monthly_to_annual tie_year Col_tbill !! 1927 = Some (lit "128.12")
     ∧ round_half_away_2 (lit "128.125") = lit "128.13"
     ∧ lit "128.12" ≠ lit "128.13").
Proof.
  split.
  - split; [vm_compute; reflexivity|]. split; [vm_compute; reflexivity|].
    vm_compute. discriminate.
  - split; [vm_compute; lia|]. split; [vm_compute; reflexivity|].
    split; [vm_compute; reflexivity|]. split; [vm_compute; reflexivity|].
    vm_compute. discriminate.
Qed.

(** The code's start condition implies the one the specification words. *)
Lemma is_start_line_claimed (line : string) :
  is_start_line line = true → claimed_start_line line = true.
Proof.
  unfold is_start_line, claimed_start_line, startswith.
  intros [Hpre Hc]%andb_prop. rewrite Hc, andb_true_r.
  apply orb_true_intro. left.
  destruct (strip line) as [|c1 [|c2 s]];
    cbn [String.prefix] in *; try done.
  destruct (ascii_dec "1" c1); [|done].
  destruct (ascii_dec "9" c2); [|done]. by destruct s.
Qed.

(** C4, as the code has it. The monthly block starts at the first line
    that, stripped, starts with "192" and that contains a comma; and
    [download_french_factors] raises its [ValueError] exactly when no
    line of the input is such a line. *)
Theorem block_start (raw : string) :
  let lines := split newline raw in
  (scan_lines 0 lines None).1
    = fst <$> list_find
                (λ line, startswith (strip line) "192" && has_char comma line)
                lines
  ∧ (download_french_factors raw = Raise (ValueError no_start_msg)
     ↔ ∀ line, line ∈ lines →
         startswith (strip line) "192" && has_char comma line = false)
  ∧ (∀ line, startswith (strip line) "192" && has_char comma line = true →
       claimed_start_line line = true).
Proof.
  cbv zeta. split; [|split].
  - rewrite scan_lines_start.
    change (λ line, Is_true (startswith (strip line) "192" && has_char comma line))
      with (λ line, Is_true (is_start_line line)).
    by destruct (list_find _ _) as [[k l]|].
  - rewrite <- (scan_lines_no_start (split newline raw)).
    unfold download_french_factors. cbv zeta.
    destruct (scan_lines _ _ _) as [[s|] e]; simpl.
    + split; [|done]. by destruct (parse_rows _).
    + done.
  - apply is_start_line_claimed.
Qed.

(** The claim C4 fails as stated: the first row of [raw_1930] starts with
    "19" and has a delimiter, yet the function raises. *)
Lemma block_start_counterexample :
  ¬ (download_french_factors raw_1930 = Raise (ValueError no_start_msg)
     ↔ ∀ line, line ∈ split newline raw_1930 →
         claimed_start_line line = false).
Proof.
  intros [Hraise _].
  assert (Hfalse : claimed_start_line
            (csv_row "193001" "    5.61" "    3.55" "   -1.01" "    0.14")
          = false).
  { apply Hraise; [vm_compute; reflexivity|].
    vm_compute. right. left. }
  vm_compute in Hfalse. discriminate.
Qed.

(** What the loop finds when the start line is not the first line: the
    end index is the first end line above [start_idx + 10]. *)
Lemma block_end_after_header (lines : list string) (s : nat) (line : string) :
  list_find (λ line, is_start_line line) lines = Some (S s, line) →
  scan_lines 0 lines None
  = (Some (S s),
     (λ p, (S s + 11 + p.1)%nat)
       <$> list_find (λ line, is_end_line line) (drop (S s + 11) lines)).
Proof. intros Hfind. rewrite scan_lines_spec, Hfind. done. Qed.

(** C5 fails on the code when the start line is the first line of the
    input: [start_idx] is 0, which the test [if start_idx and ...] takes
    as false, so that no end is ever found and the block runs to the end
    of the input. In [raw_start_first], line 12 is blank and lies more
    than ten lines past the start, yet the block keeps it and the annual
    section after it; behind a header (in [sample_raw]) the same rows end
    at the blank line. *)
Theorem end_missed_when_start_is_first_line :
  (∀ line rest,
     is_start_line line = true →
     scan_lines 0 (line :: rest) None = (Some 0%nat, None)
     ∧ block_of (line :: rest) 0 None = line :: rest)
  ∧ (let lines := split newline raw_start_first in
     scan_lines 0 lines None = (Some 0%nat, None)
     ∧ lines !! 12%nat = Some EmptyString
     ∧ is_end_line EmptyString = true
     ∧ block_of lines 0 None = sample_rows ++ annual_section)
  ∧ (let lines := split newline sample_raw in
     scan_lines 0 lines None = (Some 3%nat, Some 16%nat)
     ∧ lines !! 16%nat = Some EmptyString
     ∧ length (block_of lines 3 (Some 16%nat)) = 13%nat).
Proof.
  split; [|split].
  - intros line rest Hstart. split.
    + rewrite scan_lines_spec. simpl. by rewrite Hstart.
    + unfold block_of, list_slice. simpl. by rewrite take_ge by lia.
  - vm_compute. done.
  - vm_compute. done.
Qed.

(** A token that is a date of the specification is one the code takes. *)
Lemma digit_not_blank (c : ascii) : is_Some (digit c) → isblank c = false.
Proof.
  intros [d Hd]. unfold digit in Hd.
  destruct (Ascii.is_nat c) as [k|] eqn:Hk; [|done].
  unfold Ascii.is_nat in Hk.
  destruct c as [[] [] [] [] [] [] [] []]; simpl in Hk; simplify_eq; done.
Qed.

Lemma is_yyyymm_accepted (ym : string) :
  is_yyyymm ym = true →
  len ym = 6%nat ∧ int_numeral (slice 0 4 ym) ∧ int_numeral (slice 4 6 ym).
Proof.
  unfold is_yyyymm.
  destruct ym as [|c1 [|c2 [|c3 [|c4 [|c5 [|c6 [|c7 t]]]]]]]; try done.
  destruct (digit c1) as [d1|] eqn:H1; [|done].
  destruct (digit c2) as [d2|] eqn:H2; [|done].
  destruct (digit c3) as [d3|] eqn:H3; [|done].
  destruct (digit c4) as [d4|] eqn:H4; [|done].
  destruct (digit c5) as [d5|] eqn:H5; [|done].
  destruct (digit c6) as [d6|] eqn:H6; [|done].
  intros _. split; [done|].
  assert (B1 : isblank c1 = false) by (apply digit_not_blank; eauto).
  assert (B4 : isblank c4 = false) by (apply digit_not_blank; eauto).
  assert (B5 : isblank c5 = false) by (apply digit_not_blank; eauto).
  assert (B6 : isblank c6 = false) by (apply digit_not_blank; eauto).
  split; left.
  - change (slice 0 4 _)
      with (String c1 (String c2 (String c3 (String c4 EmptyString)))).
    unfold skip_blanks. simpl. rewrite B1. simpl. rewrite B4. simpl.
    rewrite !andb_false_r.
    apply digitpart_next; [eauto|]. apply digitpart_next; [eauto|].
    apply digitpart_next; [eauto|]. apply digitpart_one; eauto.
  - change (slice 4 6 _) with (String c5 (String c6 EmptyString)).
    unfold skip_blanks. simpl. rewrite B5. simpl. rewrite B6. simpl.
    rewrite !andb_false_r.
    apply digitpart_next; [eauto|]. apply digitpart_one; eauto.
Qed.

(** C6, as the code has it. A line gives a record exactly when it has at
    least five fields, its first field has six characters of which the
    first four and the last two each read as an integer, and the next
    four fields read as numbers; reading is that of [int] and [float],
    told here by their grammar. Every line the specification calls
    well-formed is such a line, but the first field need not be a date.
    Any other line is passed over without an error, so a block whose rows
    are accepted but for one gives one record fewer than it has rows;
    [download_french_factors] returns these records, and raises the
    [KeyError] of the empty frame when that one row is the whole block. *)
Theorem malformed_rows_are_skipped (before after : list string) (bad : string) :
  Forall accepted_line before →
  ¬ accepted_line bad →
  Forall accepted_line after →
  (∀ line, is_Some (parse_line line) ↔ accepted_line line)
  ∧ (∀ line, claimed_well_formed line → accepted_line line)
  ∧ parse_rows (before ++ bad :: after)
    = parse_rows before ++ parse_rows after
  ∧ length (parse_rows (before ++ bad :: after))
    = (length (before ++ bad :: after) - 1)%nat
  ∧ (∀ raw s e,
       scan_lines 0 (split newline raw) None = (Some s, e) →
       block_of (split newline raw) s e = before ++ bad :: after →
       download_french_factors raw
       = if bool_decide (before ++ after = [])
         then Raise (KeyError "mkt_rf")
         else Ok (parse_rows before ++ parse_rows after)).
Proof.
  intros Hbefore Hbad Hafter.
  assert (Hrows : parse_rows (before ++ bad :: after)
                  = parse_rows before ++ parse_rows after).
  { rewrite parse_rows_app, parse_rows_cons_None; [done|].
    by apply parse_line_None. }
  assert (Hlen : length (parse_rows before ++ parse_rows after)
                 = (length before + length after)%nat).
  { by rewrite length_app, !parse_rows_accepted. }
  split; [apply parse_line_is_Some|]. split; [|split; [done|split]].
  - intros line (Hfields & Hym%is_yyyymm_accepted & Hfloats).
    split; [done|]. destruct Hym as (? & ? & ?). done.
  - rewrite Hrows, Hlen, length_app. simpl. lia.
  - intros raw s e Hscan Hblock.
    unfold download_french_factors. cbv zeta. rewrite Hscan, Hblock, Hrows.
    case_bool_decide as Hnil.
    + apply app_eq_nil in Hnil as [-> ->]. done.
    + destruct (parse_rows before ++ parse_rows after) eqn:Hrecs; [|done].
      simpl in Hlen. destruct before, after; simpl in *; done || lia.
Qed.

Lemma malformed_rows_are_skipped_witness :
  length block_with_bad_row = 3%nat
  ∧ length (parse_rows block_with_bad_row) = 2%nat.
Proof.
  split; [reflexivity|].
  refine (proj1 (proj2 (proj2 (proj2
    (malformed_rows_are_skipped
       [csv_row "192607" "2.96" "-2.56" "-2.43" "0.22"]
       [csv_row "192609" "0.36" "-1.40" "0.13" "0.23"]
       (csv_row "192608" "2.64" "n/a" "3.82" "0.25") _ _ _))))).
  - constructor; [|constructor].
    apply parse_line_is_Some. vm_compute. eauto.
  - apply parse_line_None. vm_compute. reflexivity.
  - constructor; [|constructor].
    apply parse_line_is_Some. vm_compute. eauto.
Defined.

(** The claim C6 fails as stated. The rows with the tokens 192613 and
    -999-9 are taken, month 13 and year -999, though neither token is a
    date. And a block that is one row with a field that is no number
    gives no record, upon which the function raises. *)
Lemma malformed_rows_counterexample :
  (parse_line "192613,1,2,3,4"
   = Some (mkRow 1926 13 (lit "1") (lit "2") (lit "3") (lit "4"))
   ∧ ¬ claimed_well_formed "192613,1,2,3,4")
  ∧ (parse_line "-999-9,1,2,3,4"
     = Some (mkRow (-999) (-9) (lit "1") (lit "2") (lit "3") (lit "4"))
     ∧ ¬ claimed_well_formed "-999-9,1,2,3,4")
  ∧ (scan_lines 0 (split newline "192607,x,2,3,4") None = (Some 0%nat, None)
     ∧ block_of (split newline "192607,x,2,3,4") 0 None = ["192607,x,2,3,4"]
     ∧ parse_rows ["192607,x,2,3,4"] = []
     ∧ download_french_factors "192607,x,2,3,4" = Raise (KeyError "mkt_rf")).
Proof.
  split; [|split].
  - split; [vm_compute; reflexivity|].
    intros (_ & Hym & _). vm_compute in Hym. discriminate.
  - split; [vm_compute; reflexivity|].
    intros (_ & Hym & _). vm_compute in Hym. discriminate.
  - repeat split; vm_compute; reflexivity.
Qed.

Section duplicates.
Implicit Types (df : list Row) (y : Z) (r : Row).

Lemma group_of_app df1 df2 y :
group_of (df1 ++ df2) y = group_of df1 y ++ group_of df2 y.
Proof. apply filter_app. Qed.

Lemma group_of_cons_same r df :
group_of (r :: df) (year r) = r :: group_of df (year r).
Proof. unfold group_of. by rewrite filter_cons_True. Qed.

Lemma compound_from_app cum (values1 values2 : list float64) :
compound_from cum (values1 ++ values2)
= compound_from (compound_from cum values1) values2.
Proof. apply foldl_app. Qed.

Lemma compound_from_cons cum v (values : list float64) :
compound_from cum (v :: values)
= compound_from (fmul cum (growth v)) values.
Proof. reflexivity. Qed.
End duplicates.

(** C7. Two accepted rows with the same date token are both kept: both
    are records of the frame, in their places; both are rows of their
    year's group, so both count towards the eleven months; and the factor
    of each is multiplied into the year's product. *)
Theorem duplicate_rows_are_kept (block1 block2 block3 : list string)
    (a b : string) (ra rb : Row) (col : column) :
  parse_line a = Some ra →
  parse_line b = Some rb →
  ym_token a = ym_token b →
  let ff := parse_rows (block1 ++ a :: block2 ++ b :: block3) in
  let y := year ra in
  let g1 := group_of (parse_rows block1) y in
  let g2 := group_of (parse_rows block2) y in
  let g3 := group_of (parse_rows block3) y in
  (year rb = y ∧ month rb = month ra)
  ∧ ff = parse_rows block1 ++ ra :: parse_rows block2
         ++ rb :: parse_rows block3
  ∧ group_of ff y = g1 ++ ra :: g2 ++ rb :: g3
  ∧ (y ∈ dom (monthly_to_annual ff col)
     ↔ (11 <= length g1 + length g2 + length g3 + 2)%nat)
  ∧ compound (col_value col <$> group_of ff y)
    = compound_from
        (fmul (compound_from
                 (fmul (compound (col_value col <$> g1))
                       (growth (col_value col ra)))
                 (col_value col <$> g2))
              (growth (col_value col rb)))
        (col_value col <$> g3).
Proof.
  intros Ha Hb Htoken. cbv zeta.
  destruct (parse_line_date a ra Ha) as [Hya Hma].
  destruct (parse_line_date b rb Hb) as [Hyb Hmb].
  rewrite Htoken in Hya, Hma.
  assert (Hy : year rb = year ra) by congruence.
  assert (Hm : month rb = month ra) by congruence.
  assert (Hff : parse_rows (block1 ++ a :: block2 ++ b :: block3)
                = parse_rows block1 ++ ra :: parse_rows block2
                  ++ rb :: parse_rows block3).
  { rewrite parse_rows_app, (parse_rows_cons_Some a ra _ Ha).
    by rewrite parse_rows_app, (parse_rows_cons_Some b rb _ Hb). }
  assert (Hgroup :
    group_of (parse_rows (block1 ++ a :: block2 ++ b :: block3)) (year ra)
    = group_of (parse_rows block1) (year ra)
      ++ ra :: group_of (parse_rows block2) (year ra)
      ++ rb :: group_of (parse_rows block3) (year ra)).
  { rewrite Hff, group_of_app, group_of_cons_same, group_of_app.
    by rewrite <- Hy, group_of_cons_same. }
  split; [done|]. split; [done|]. split; [done|]. split.
  - rewrite elem_of_dom_monthly_to_annual, Hgroup.
    rewrite length_app. simpl. rewrite length_app. simpl. lia.
  - rewrite Hgroup. unfold compound.
    rewrite fmap_app, compound_from_app, fmap_cons, compound_from_cons.
    by rewrite fmap_app, compound_from_app, fmap_cons, compound_from_cons.
Qed.

Lemma duplicate_rows_are_kept_witness :
  (1927 ∈ dom (monthly_to_annual (parse_rows ten_months_dup) Col_tbill)
   ↔ (11 <= 9 + 0 + 0 + 2)%nat)
  ∧ length (parse_rows ten_months_dup) = 11%nat
  ∧ monthly_to_annual (parse_rows ten_months) Col_tbill !! 1927 = None.
Proof.
  split; [|split; vm_compute; reflexivity].
  refine (proj1 (proj2 (proj2 (proj2
    (duplicate_rows_are_kept (take 9 sample_rows) [] []
       (csv_row "192710" "    2.96" "   -2.56" "   -2.43" "    0.2234")
       (csv_row "192710" "    2.96" "   -2.56" "   -2.43" "    0.2234")
       (mkRow 1927 10 (lit "2.96") (lit "-2.56") (lit "-2.43") (lit "0.2234"))
       (mkRow 1927 10 (lit "2.96") (lit "-2.56") (lit "-2.43") (lit "0.2234"))
       Col_tbill _ _ _))))).
  - vm_compute. reflexivity.
  - vm_compute. reflexivity.
  - reflexivity.
Defined.




(** ** The static tables and the outcomes of [main] *)

(** Both tables have an entry for each year from 1926 to 2025 and for no
    other year. *)
Lemma dom_get_bond_returns : dom get_bond_returns = list_to_set (seqZ 1926 100).
Proof. vm_compute. reflexivity. Qed.

Lemma dom_get_inflation : dom get_inflation = list_to_set (seqZ 1926 100).
Proof. vm_compute. reflexivity. Qed.

Lemma elem_of_dom_tables (y : Z) :
  (y ∈ dom get_bond_returns ↔ 1926 <= y <= 2025)
  ∧ (y ∈ dom get_inflation ↔ 1926 <= y <= 2025).
Proof.
  rewrite dom_get_bond_returns, dom_get_inflation.
  rewrite !elem_of_list_to_set, !elem_of_seqZ. lia.
Qed.

(** A year is on the axis exactly when it lies in the tables' range and
    has its eleven rows. *)
Lemma elem_of_all_years (ff : list Row) (y : Z) :
  y ∈ all_years_of (monthly_to_annual ff Col_mkt_total)
        get_bond_returns get_inflation
  ↔ 1926 <= y <= 2025 ∧ (11 <= length (group_of ff y))%nat.
Proof.
  unfold all_years_of.
  rewrite elem_of_sorted, !elem_of_intersection.
  rewrite elem_of_dom_monthly_to_annual.
  destruct (elem_of_dom_tables y) as [-> ->]. tauto.
Qed.

Lemma StronglySorted_filter {A} (R : relation A) (P : A → Prop)
    `{∀ x, Decision (P x)} (l : list A) :
  StronglySorted R l → StronglySorted R (filter P l).
Proof.
  induction 1 as [|x l Hl IH Hx]; [constructor|].
  rewrite filter_cons. case_decide; [|done].
  constructor; [done|].
  rewrite Forall_forall in Hx. apply Forall_forall.
  intros z [_ Hz]%list_elem_of_filter. by apply Hx.
Qed.

Lemma StronglySorted_seqZ (m n : Z) : StronglySorted Z.lt (seqZ m n).
Proof.
  remember (Z.to_nat n) as k eqn:Hk. revert m n Hk.
  induction k as [|k IH]; intros m n Hk.
  - rewrite seqZ_nil by lia. constructor.
  - rewrite seqZ_cons by lia. constructor; [apply IH; lia|].
    apply Forall_seqZ. lia.
Qed.

(** X1. The year axis read off the input: the years from 1926 to 2025, in
    ascending order, of which the parsed frame has at least eleven rows.
    A year outside the range of the static tables is never on the axis,
    however many rows it has. *)
Theorem year_axis_from_rows (now raw : string) (ff : list Row)
    (data : Dataset) :
  download_french_factors raw = Ok ff →
  build now raw = Ok data →
  years data
  = filter (λ y, (11 <= length (group_of ff y))%nat) (seqZ 1926 100).
Proof.
  intros Hff (ff' & Hff' & _ & Hy & _)%build_Ok.
  rewrite Hff in Hff'. injection Hff' as <-. rewrite Hy.
  apply (StronglySorted_unique_strong Z.lt).
  - intros; lia.
  - apply sorted_ascending.
  - apply StronglySorted_filter, StronglySorted_seqZ.
  - apply NoDup_Permutation.
    + apply NoDup_sorted.
    + apply NoDup_filter, NoDup_seqZ.
    + intros y. rewrite elem_of_all_years, list_elem_of_filter, elem_of_seqZ.
      lia.
Qed.

Lemma year_axis_from_rows_witness :
  download_french_factors sample_raw = Ok sample_ff
  ∧ build sample_now sample_raw = Ok sample_data
  ∧ length (group_of sample_ff 1927) = 12%nat
  ∧ length (group_of sample_ff 1928) = 1%nat
  ∧ years sample_data
    = filter (λ y, (11 <= length (group_of sample_ff y))%nat)
        (seqZ 1926 100).
Proof.
  assert (H1 : download_french_factors sample_raw = Ok sample_ff)
    by (vm_compute; reflexivity).
  assert (H2 : build sample_now sample_raw = Ok sample_data)
    by (vm_compute; reflexivity).
  split; [exact H1|]. split; [exact H2|].
  split; [reflexivity|]. split; [reflexivity|].
  exact (year_axis_from_rows _ _ _ _ H1 H2).
Defined.

(** X2. No gap marker is ever written: in a document that [build]
    returns, every entry of every asset's [returns] is a value, the one
    its series holds at the year in the same position of [years]. For
    the three compounded series this is the annual return of that year's
    rows. *)
Theorem returns_have_no_gaps (now raw : string) (ff : list Row)
    (data : Dataset) :
  download_french_factors raw = Ok ff →
  build now raw = Ok data →
  Forall (λ a, Forall is_Some (returns a.2)) (assets data)
  ∧ returns <$> (assets data).*2
    = [ (λ y, Some (annual_return (mkt_total <$> group_of ff y)))
          <$> years data;
        (λ y, Some (annual_return (small_total <$> group_of ff y)))
          <$> years data;
        (λ y, get_bond_returns !! y) <$> years data;
        (λ y, Some (annual_return (tbill <$> group_of ff y)))
          <$> years data;
        (λ y, get_inflation !! y) <$> years data ].
Proof.
  intros Hff (ff' & Hff' & _ & Hy & _ & _ & _ & _ & Hrets)%build_Ok.
  rewrite Hff in Hff'. injection Hff' as <-.
  assert (Hin : ∀ y, y ∈ years data →
    1926 <= y <= 2025 ∧ (11 <= length (group_of ff y))%nat).
  { intros y. rewrite Hy. apply elem_of_all_years. }
  assert (Hcol : ∀ col,
    aligned (monthly_to_annual ff col) (years data)
    = (λ y, Some (annual_return (col_value col <$> group_of ff y)))
        <$> years data).
  { intros col. unfold aligned. apply Forall_fmap_ext_1.
    apply Forall_forall. intros y [_ Hlen]%Hin.
    rewrite monthly_to_annual_lookup.
    by rewrite (proj2 (Nat.ltb_ge _ 11)) by lia. }
  rewrite <- Hy in Hrets.
  rewrite (Hcol Col_mkt_total), (Hcol Col_small_total), (Hcol Col_tbill)
    in Hrets.
  split; [|exact Hrets].
  assert (Hall : Forall (Forall is_Some) (returns <$> (assets data).*2)).
  { rewrite Hrets. repeat constructor; apply Forall_fmap, Forall_forall;
      intros y Hyin; simpl; eauto;
      apply elem_of_dom, elem_of_dom_tables, (Hin y Hyin). }
  rewrite <- list_fmap_compose, Forall_fmap in Hall. exact Hall.
Qed.

Lemma returns_have_no_gaps_witness :
  download_french_factors sample_raw = Ok sample_ff
  ∧ build sample_now sample_raw = Ok sample_data
  ∧ Forall (λ a, Forall is_Some (returns a.2)) (assets sample_data).
Proof.
  assert (H1 : download_french_factors sample_raw = Ok sample_ff)
    by (vm_compute; reflexivity).
  assert (H2 : build sample_now sample_raw = Ok sample_data)
    by (vm_compute; reflexivity).
  split; [exact H1|]. split; [exact H2|].
  exact (proj1 (returns_have_no_gaps _ _ _ _ H1 H2)).
Defined.

Section outcomes.
Implicit Types (now raw : string) (file : option Dataset) (ff : list Row).

Lemma parse_rows_nil (block : list string) :
parse_rows block = [] ↔ Forall (λ line, ¬ accepted_line line) block.
Proof.
induction block as [|line block IH].
- split; [constructor|done].
- rewrite Forall_cons, <- IH, <- parse_line_None.
  unfold parse_rows. simpl.
  destruct (parse_line line); simpl; [|tauto].
  split; [done|]. by intros [? _].
Qed.

Lemma main_no_start now raw file :
(∀ line, line ∈ split newline raw → is_start_line line = false) →
main now raw file = (Raise (ValueError no_start_msg), file).
Proof.
intros Hnone%scan_lines_no_start.
unfold main, build, download_french_factors. cbv zeta.
destruct (scan_lines _ _ _) as [start e]. simpl in Hnone. by subst.
Qed.

Lemma main_no_row now raw file s e :
scan_lines 0 (split newline raw) None = (Some s, e) →
parse_rows (block_of (split newline raw) s e) = [] →
main now raw file = (Raise (KeyError "mkt_rf"), file).
Proof.
intros Hscan Hrows.
unfold main, build, download_french_factors. cbv zeta.
by rewrite Hscan, Hrows.
Qed.

Lemma main_no_year now raw file ff :
download_french_factors raw = Ok ff →
(∀ y, 1926 <= y <= 2025 → (length (group_of ff y) < 11)%nat) →
main now raw file = (Raise IndexError, file).
Proof.
intros Hff Hshort. unfold main.
rewrite (build_empty_axis now raw ff Hff); [done|].
destruct (all_years_of _ _ _) as [|y l] eqn:Hyears; [done|].
assert (Hy : y ∈ all_years_of (monthly_to_annual ff Col_mkt_total)
                   get_bond_returns get_inflation)
  by (rewrite Hyears; left).
apply elem_of_all_years in Hy as [Hrange Hlen].
specialize (Hshort y Hrange). lia.
Qed.

Lemma main_some_year now raw file ff y :
download_french_factors raw = Ok ff →
1926 <= y <= 2025 →
(11 <= length (group_of ff y))%nat →
∃ data, main now raw file = (Ok tt, Some data).
Proof.
intros Hff Hrange Hlen. unfold main.
destruct (build_nonempty_axis now raw ff Hff) as [data ->]; [|eauto].
intros Hnil.
assert (Hy : y ∈ all_years_of (monthly_to_annual ff Col_mkt_total)
                   get_bond_returns get_inflation)
  by (by apply elem_of_all_years).
rewrite Hnil in Hy. by apply not_elem_of_nil in Hy.
Qed.

(** One of four things holds of an input. *)
Lemma input_cases raw :
(∀ line, line ∈ split newline raw → is_start_line line = false)
∨ (∃ s e, scan_lines 0 (split newline raw) None = (Some s, e)
          ∧ parse_rows (block_of (split newline raw) s e) = [])
∨ (∃ ff, download_french_factors raw = Ok ff
         ∧ ∀ y, 1926 <= y <= 2025 → (length (group_of ff y) < 11)%nat)
∨ (∃ ff y, download_french_factors raw = Ok ff
           ∧ 1926 <= y <= 2025 ∧ (11 <= length (group_of ff y))%nat).
Proof.
destruct (scan_lines 0 (split newline raw) None) as [[s|] e] eqn:Hscan.
2:{ left. apply scan_lines_no_start. by rewrite Hscan. }
right.
destruct (parse_rows (block_of (split newline raw) s e)) as [|r l] eqn:Hrows.
{ left. by exists s, e. }
right.
assert (Hff : download_french_factors raw = Ok (r :: l)).
{ rewrite <- Hrows. apply (download_french_factors_Ok raw s e Hscan).
  by rewrite Hrows. }
destruct (all_years_of (monthly_to_annual (r :: l) Col_mkt_total)
            get_bond_returns get_inflation) as [|y ys] eqn:Hyears.
- left. exists (r :: l). split; [done|]. intros y Hrange.
  apply Nat.lt_nge. intros Hlen.
  assert (Hy : y ∈ all_years_of (monthly_to_annual (r :: l) Col_mkt_total)
                     get_bond_returns get_inflation)
    by (by apply elem_of_all_years).
  rewrite Hyears in Hy. by apply not_elem_of_nil in Hy.
- right. exists (r :: l), y. split; [done|].
  apply elem_of_all_years. rewrite Hyears. left.
Qed.
End outcomes.

(** X3. The outcomes of [main] from the decoded text on, the output file
    being one that can be written. (The fetching, unpacking and decoding
    before that, and the writing itself, are not part of this model:
    their failures are further outcomes.) It raises the [ValueError]
    exactly when no line is a start line; the [KeyError] of the empty
    frame exactly when a start line exists and no row of the block is
    accepted; the [IndexError] of the empty axis exactly when rows were
    parsed and no year from 1926 to 2025 has eleven of them; and it
    reaches the writing of the file exactly when some such year has. In
    between nothing else is raised (the division in the summary loop
    never fails); the file is left as it was by each of the three
    exceptions and replaced otherwise. *)
Theorem main_outcomes (now raw : string) (file : option Dataset) :
  let lines := split newline raw in
  let out := main now raw file in
  (out.1 = Raise (ValueError no_start_msg)
   ↔ ∀ line, line ∈ lines → is_start_line line = false)
  ∧ (out.1 = Raise (KeyError "mkt_rf")
     ↔ ∃ s e, scan_lines 0 lines None = (Some s, e)
              ∧ Forall (λ line, ¬ accepted_line line) (block_of lines s e))
  ∧ (out.1 = Raise IndexError
     ↔ ∃ ff, download_french_factors raw = Ok ff
             ∧ ∀ y, 1926 <= y <= 2025 → (length (group_of ff y) < 11)%nat)
  ∧ (out.1 = Ok tt
     ↔ ∃ ff y, download_french_factors raw = Ok ff
               ∧ 1926 <= y <= 2025 ∧ (11 <= length (group_of ff y))%nat)
  ∧ (out.1 = Raise (ValueError no_start_msg) ∨ out.1 = Raise (KeyError "mkt_rf")
     ∨ out.1 = Raise IndexError ∨ out.1 = Ok tt)
  ∧ (out.1 = Ok tt → ∃ data, build now raw = Ok data ∧ out.2 = Some data)
  ∧ (out.1 ≠ Ok tt → out.2 = file).
Proof.
  cbv zeta.
  assert (Hcases := input_cases raw).
  split; [|split; [|split; [|split; [|split; [|split]]]]].
  - split; [|by intros ->%(main_no_start now raw file)].
    intros Hout.
    destruct Hcases as [H|[(s & e & Hs & Hr)|[(ff & Hff & Hy)|(ff & y & Hff & Hr & Hl)]]].
    + done.
    + by rewrite (main_no_row now raw file s e Hs Hr) in Hout.
    + by rewrite (main_no_year now raw file ff Hff Hy) in Hout.
    + destruct (main_some_year now raw file ff y Hff Hr Hl) as [d Hd].
      by rewrite Hd in Hout.
  - setoid_rewrite <- parse_rows_nil.
    split; [|by intros (s & e & Hs & ->%(main_no_row now raw file s e Hs))].
    intros Hout.
    destruct Hcases as [H|[(s & e & Hs & Hr)|[(ff & Hff & Hy)|(ff & y & Hff & Hr & Hl)]]].
    + by rewrite (main_no_start now raw file H) in Hout.
    + eauto.
    + by rewrite (main_no_year now raw file ff Hff Hy) in Hout.
    + destruct (main_some_year now raw file ff y Hff Hr Hl) as [d Hd].
      by rewrite Hd in Hout.
  - split; [|by intros (ff & Hff & ->%(main_no_year now raw file ff Hff))].
    intros Hout.
    destruct Hcases as [H|[(s & e & Hs & Hr)|[(ff & Hff & Hy)|(ff & y & Hff & Hr & Hl)]]].
    + by rewrite (main_no_start now raw file H) in Hout.
    + by rewrite (main_no_row now raw file s e Hs Hr) in Hout.
    + eauto.
    + destruct (main_some_year now raw file ff y Hff Hr Hl) as [d Hd].
      by rewrite Hd in Hout.
  - split.
    + intros Hout.
      destruct Hcases as [H|[(s & e & Hs & Hr)|[(ff & Hff & Hy)|(ff & y & Hff & Hr & Hl)]]].
      * by rewrite (main_no_start now raw file H) in Hout.
      * by rewrite (main_no_row now raw file s e Hs Hr) in Hout.
      * by rewrite (main_no_year now raw file ff Hff Hy) in Hout.
      * eauto.
    + intros (ff & y & Hff & Hr & Hl).
      destruct (main_some_year now raw file ff y Hff Hr Hl) as [d Hd].
      by rewrite Hd.
  - destruct Hcases as [H|[(s & e & Hs & Hr)|[(ff & Hff & Hy)|(ff & y & Hff & Hr & Hl)]]].
    + left. by rewrite (main_no_start now raw file H).
    + right. left. by rewrite (main_no_row now raw file s e Hs Hr).
    + right. right. left. by rewrite (main_no_year now raw file ff Hff Hy).
    + right. right. right.
      destruct (main_some_year now raw file ff y Hff Hr Hl) as [d Hd].
      by rewrite Hd.
  - unfold main. destruct (build now raw) as [d|err]; [eauto|done].
  - unfold main. by destruct (build now raw) as [d|err].
Qed.

(** ** The monthly series of the document *)

Section sorting.
Implicit Types (r : Row) (l ff : list Row).

Lemma row_le_spec r1 r2 :
row_le r1 r2 = true ↔ chronological r1 r2.
Proof.
unfold row_le, chronological.
rewrite orb_true_iff, andb_true_iff, Z.ltb_lt, Z.eqb_eq, Z.leb_le. done.
Qed.

Lemma row_le_total r1 r2 : row_le r1 r2 = false → chronological r2 r1.
Proof.
intros Hfalse. unfold chronological.
destruct (row_le r1 r2) eqn:Hle; [done|]. clear Hfalse.
unfold row_le in Hle.
apply orb_false_iff in Hle as [Hlt%Z.ltb_ge Hrest].
apply andb_false_iff in Hrest as [Hne%Z.eqb_neq|Hm%Z.leb_gt]; lia.
Qed.

Lemma chronological_trans r1 r2 r3 :
chronological r1 r2 → chronological r2 r3 → chronological r1 r3.
Proof. unfold chronological. lia. Qed.

Lemma insert_row_sorted r l :
StronglySorted chronological l →
StronglySorted chronological (insert_row r l).
Proof.
induction 1 as [|x l Hl IH Hx]; simpl.
- repeat constructor.
- destruct (row_le r x) eqn:Hle.
  + apply row_le_spec in Hle. constructor; [by constructor|].
    constructor; [done|].
    eapply Forall_impl; [exact Hx|]. intros z Hz.
    by apply (chronological_trans r x z).
  + apply row_le_total in Hle. constructor; [done|].
    rewrite insert_row_Permutation. by constructor.
Qed.

Lemma sort_values_sorted ff : StronglySorted chronological (sort_values ff).
Proof.
induction ff as [|r ff IH]; simpl; [constructor|].
by apply insert_row_sorted.
Qed.

(** A frame that is in order already is left as it is. *)
Lemma sort_values_fixed ff :
StronglySorted chronological ff → sort_values ff = ff.
Proof.
induction 1 as [|r ff Hff IH Hr]; simpl; [done|].
rewrite IH. destruct ff as [|x ff]; simpl; [done|].
apply Forall_cons in Hr as [Hrx%row_le_spec _]. by rewrite Hrx.
Qed.
End sorting.

(** X4. The monthly series of the document has one entry for every
    parsed record, those of the years that fail the coverage rule
    included, in the order of year and month whatever the order of the
    file; when the file is in that order already, in the order of the
    file. *)
Theorem monthly_series_complete_and_ordered (now raw : string)
    (ff : list Row) (data : Dataset) :
  download_french_factors raw = Ok ff →
  build now raw = Ok data →
  dates (monthly data) = year_month <$> sort_values ff
  ∧ sort_values ff ≡ₚ ff
  ∧ StronglySorted chronological (sort_values ff)
  ∧ length (dates (monthly data)) = length ff
  ∧ (∀ r, r ∈ ff → year_month r ∈ dates (monthly data))
  ∧ (StronglySorted chronological ff →
     dates (monthly data) = year_month <$> ff).
Proof.
  intros Hff (ff' & Hff' & _ & _ & Hd & _)%build_Ok.
  rewrite Hff in Hff'. injection Hff' as <-.
  split; [done|]. split; [apply sort_values_Permutation|].
  split; [apply sort_values_sorted|]. split; [|split].
  - by rewrite Hd, length_fmap, sort_values_Permutation.
  - intros r Hr. rewrite Hd. apply list_elem_of_fmap_2.
    by rewrite sort_values_Permutation.
  - intros Hsorted. by rewrite Hd, sort_values_fixed.
Qed.

Lemma monthly_series_complete_and_ordered_witness :
  download_french_factors out_of_order_raw = Ok out_of_order_ff
  ∧ build sample_now out_of_order_raw = Ok out_of_order_data
  ∧ take 2 (year_month <$> out_of_order_ff) = ["1928-01"; "1927-01"]
  ∧ dates (monthly out_of_order_data)
    = ["1927-01"; "1927-02"; "1927-03"; "1927-04"; "1927-05"; "1927-06";
       "1927-07"; "1927-08"; "1927-09"; "1927-10"; "1927-11"; "1927-12";
       "1928-01"]
  ∧ length (dates (monthly out_of_order_data)) = length out_of_order_ff.
Proof.
  assert (H1 : download_french_factors out_of_order_raw = Ok out_of_order_ff)
    by (vm_compute; reflexivity).
  assert (H2 : build sample_now out_of_order_raw = Ok out_of_order_data)
    by (vm_compute; reflexivity).
  split; [exact H1|]. split; [exact H2|].
  split; [reflexivity|]. split; [reflexivity|].
  exact (proj1 (proj2 (proj2 (proj2
    (monthly_series_complete_and_ordered _ _ _ _ H1 H2))))).
Defined.

(** ** Line ends *)

Section line_ends.
Implicit Types (s t sub line : string) (c : ascii) (lines : list string).

Lemma lstrip_snoc s c :
isspace c = true →
lstrip (s +:+ String c EmptyString)
= if is_empty (lstrip s) then EmptyString
  else lstrip s +:+ String c EmptyString.
Proof.
intros Hc. induction s as [|d s IH]; simpl.
- by rewrite Hc.
- destruct (isspace d); [done|]. reflexivity.
Qed.

Lemma rstrip_snoc s c :
isspace c = true → rstrip (s +:+ String c EmptyString) = rstrip s.
Proof.
intros Hc. induction s as [|d s IH]; simpl.
- by rewrite Hc.
- by rewrite IH.
Qed.

Lemma strip_snoc s c :
isspace c = true → strip (s +:+ String c EmptyString) = strip s.
Proof.
intros Hc. unfold strip. rewrite lstrip_snoc by done.
destruct (lstrip s) as [|d t]; cbn [is_empty]; [done|].
by apply rstrip_snoc.
Qed.

Lemma has_char_snoc c d s :
Ascii.eqb c d = false →
has_char c (s +:+ String d EmptyString) = has_char c s.
Proof.
intros Hcd. induction s as [|a s IH]; simpl.
- by rewrite Hcd.
- by rewrite IH.
Qed.

Lemma prefix_snoc sub s c :
has_char c sub = false →
String.prefix sub (s +:+ String c EmptyString) = String.prefix sub s.
Proof.
revert s. induction sub as [|a sub IH]; intros s Hc; [by destruct s|].
simpl in Hc. apply orb_false_iff in Hc as [Hca Hsub].
destruct s as [|b s]; simpl.
- destruct (ascii_dec a c) as [->|]; [|done].
  by rewrite Ascii.eqb_refl in Hca.
- destruct (ascii_dec a b); [by apply IH|done].
Qed.

Lemma contains_snoc sub s c :
has_char c sub = false →
contains sub (s +:+ String c EmptyString) = contains sub s.
Proof.
intros Hc. induction s as [|a s IH].
- pose proof (prefix_snoc sub EmptyString c Hc) as Hpre.
  change (EmptyString +:+ String c EmptyString)
    with (String c EmptyString) in *.
  cbn [contains]. rewrite Hpre.
  by destruct (String.prefix sub EmptyString).
- pose proof (prefix_snoc sub (String a s) c Hc) as Hpre.
  change (String a s +:+ String c EmptyString)
    with (String a (s +:+ String c EmptyString)) in *.
  cbn [contains]. by rewrite Hpre, IH.
Qed.

(** What the parser asks of a line does not see a carriage return at its
  end. *)
Lemma same_line_strip line' line : same_line line' line → strip line' = strip line.
Proof. intros [->| ->]; [done|]. by apply strip_snoc. Qed.

Lemma same_line_start line' line :
same_line line' line → is_start_line line' = is_start_line line.
Proof.
intros H. unfold is_start_line. rewrite (same_line_strip _ _ H).
destruct H as [->| ->]; [done|]. by rewrite has_char_snoc.
Qed.

Lemma same_line_end line' line :
same_line line' line → is_end_line line' = is_end_line line.
Proof.
intros H. unfold is_end_line. rewrite (same_line_strip _ _ H).
destruct H as [->| ->]; [done|]. by rewrite contains_snoc.
Qed.

Lemma same_line_parse line' line :
same_line line' line → parse_line line' = parse_line line.
Proof.
intros H. unfold parse_line. by rewrite (same_line_strip _ _ H).
Qed.

Lemma same_lines_scan lines' lines i start_idx :
Forall2 same_line lines' lines →
scan_lines i lines' start_idx = scan_lines i lines start_idx.
Proof.
intros H. revert i start_idx.
induction H as [|l' l ls' ls Hl _ IH]; intros i start_idx; simpl; [done|].
by rewrite (same_line_start _ _ Hl), (same_line_end _ _ Hl), IH.
Qed.

Lemma same_lines_parse lines' lines :
Forall2 same_line lines' lines → parse_rows lines' = parse_rows lines.
Proof.
induction 1 as [|l' l ls' ls Hl _ IH]; [done|].
pose proof (same_line_parse _ _ Hl) as Hp.
destruct (parse_line l) as [r|] eqn:Hr.
- by rewrite (parse_rows_cons_Some _ _ _ Hp), (parse_rows_cons_Some _ _ _ Hr), IH.
- by rewrite (parse_rows_cons_None _ _ Hp), (parse_rows_cons_None _ _ Hr), IH.
Qed.

Lemma same_lines_block lines' lines (s : nat) (e : option nat) :
Forall2 same_line lines' lines →
Forall2 same_line (block_of lines' s e) (block_of lines s e).
Proof.
intros H. unfold block_of, list_slice.
rewrite (Forall2_length _ _ _ H).
by apply Forall2_take, Forall2_drop.
Qed.

(** The lines of a text with DOS line ends are the lines of the text,
  each but the last with a carriage return at its end. *)
Lemma split_crlf s : Forall2 same_line (split newline (crlf s)) (split newline s).
Proof.
induction s as [|c s IH]; simpl.
- constructor; [by left|constructor].
- destruct (Ascii.eqb c newline) eqn:Hc; simpl.
  + constructor; [by right|done].
  + destruct IH as [|l' l ls' ls Hl Hls]; simpl; rewrite ?Hc.
    * constructor; [by left|constructor].
    * constructor; [|done]. destruct Hl as [->| ->]; [by left|by right].
Qed.
End line_ends.

(** X5. DOS line ends make no difference: on a text with a carriage
    return before every line feed, [download_french_factors] gives what
    it gives on the text without them, the same frame or the same
    exception, and so does [main]. *)
Theorem download_ignores_carriage_returns (raw : string) :
  download_french_factors (crlf raw) = download_french_factors raw
  ∧ ∀ now file, main now (crlf raw) file = main now raw file.
Proof.
  assert (H : download_french_factors (crlf raw) = download_french_factors raw).
  { unfold download_french_factors. cbv zeta.
    pose proof (split_crlf raw) as Hlines.
    rewrite (same_lines_scan _ _ 0 None Hlines).
    destruct (scan_lines _ _ _) as [[s|] e]; [|done].
    by rewrite (same_lines_parse _ _ (same_lines_block _ _ s e Hlines)). }
  split; [done|]. intros now file. unfold main, build. by rewrite H.
Qed.

(** ** The range of the parsed year and month *)

Section int_bounds.
Implicit Types (s : string) (acc v : Z) (n : nat).

Lemma digit_range (c : ascii) d : digit c = Some d → 0 <= d <= 9.
Proof.
unfold digit. destruct (Ascii.is_nat c) as [k|] eqn:Hk; [|done].
intros [= <-]. unfold Ascii.is_nat in Hk.
destruct c as [[] [] [] [] [] [] [] []]; simpl in Hk; simplify_eq; lia.
Qed.

(** A digit part of [k] characters is below [10 ^ k]. *)
Lemma digitpart_go_bound (k : nat) s acc n v n' rest :
(String.length s <= k)%nat →
0 <= acc →
digitpart_go acc n s = (v, n', rest) →
acc <= v < (acc + 1) * 10 ^ Z.of_nat (String.length s).
Proof.
revert s acc n. induction k as [|k IH]; intros s acc n Hlen Hacc.
- destruct s; simpl in *; [|lia]. intros [= <- _ _]. lia.
- destruct s as [|c s]; simpl; [intros [= <- _ _]; lia|].
  simpl in Hlen.
  assert (Hpow : 10 ^ Z.of_nat (S (String.length s))
                 = 10 * 10 ^ Z.of_nat (String.length s)).
  { rewrite Nat2Z.inj_succ, Z.pow_succ_r by lia. done. }
  assert (0 < 10 ^ Z.of_nat (String.length s)) by (apply Z.pow_pos_nonneg; lia).
  destruct (digit c) as [d|] eqn:Hd.
  + apply digit_range in Hd. intros Hgo.
    apply IH in Hgo; [|lia..]. rewrite Hpow. nia.
  + destruct (Ascii.eqb c "_"); [|intros [= <- _ _]; rewrite Hpow; nia].
    destruct s as [|c2 s2]; [intros [= <- _ _]; rewrite Hpow; nia|].
    destruct (digit c2) as [d|] eqn:Hd2;
      [|intros [= <- _ _]; rewrite Hpow; nia].
    apply digit_range in Hd2. intros Hgo. simpl in Hlen.
    apply IH in Hgo; [|lia..].
    rewrite Hpow. simpl String.length.
    rewrite Nat2Z.inj_succ, Z.pow_succ_r by lia.
    assert (0 < 10 ^ Z.of_nat (String.length s2))
      by (apply Z.pow_pos_nonneg; lia).
    nia.
Qed.

Lemma digitpart_bound s v n rest :
digitpart s = Some (v, n, rest) →
0 <= v < 10 ^ Z.of_nat (String.length s).
Proof.
unfold digitpart. destruct s as [|c s]; [done|].
destruct (digit c) as [d|] eqn:Hd; [|done].
apply digit_range in Hd. intros [= Hgo].
apply (digitpart_go_bound (String.length s)) in Hgo; [|lia..].
simpl String.length. rewrite Nat2Z.inj_succ, Z.pow_succ_r by lia.
assert (0 < 10 ^ Z.of_nat (String.length s))
  by (apply Z.pow_pos_nonneg; lia).
nia.
Qed.

Lemma length_skip_blanks s :
(String.length (skip_blanks s) <= String.length s)%nat.
Proof.
assert (Hl : ∀ t, (String.length (lskip t) <= String.length t)%nat).
{ induction t as [|c t IH]; simpl; [lia|].
  destruct (isblank c); simpl; lia. }
assert (Hr : ∀ t, (String.length (rskip t) <= String.length t)%nat).
{ induction t as [|c t IH]; simpl; [lia|].
  destruct (isblank c && is_empty (rskip t)); simpl; lia. }
unfold skip_blanks. etrans; [apply Hr|apply Hl].
Qed.

Lemma length_substring (i m : nat) s :
(String.length (String.substring i m s) <= m)%nat.
Proof.
revert i m. induction s as [|c s IH]; intros i m.
- destruct i, m; simpl; lia.
- destruct i as [|i]; simpl.
  + destruct m as [|m]; simpl; [lia|]. specialize (IH 0%nat m). lia.
  + apply IH.
Qed.

(** [int(s)] of a string of at most [k] characters lies strictly between
  [-10^(k-1)] and [10^k]: a sign takes one of the characters. *)
Lemma py_int_bound (k : nat) s v :
(String.length s <= S k)%nat →
py_int s = Some v →
- 10 ^ Z.of_nat k < v < 10 ^ Z.of_nat (S k).
Proof.
intros Hlen. unfold py_int.
pose proof (length_skip_blanks s) as Hstrip.
assert (Hk : 0 < 10 ^ Z.of_nat k) by (apply Z.pow_pos_nonneg; lia).
assert (HSk : 10 ^ Z.of_nat (S k) = 10 * 10 ^ Z.of_nat k).
{ rewrite Nat2Z.inj_succ, Z.pow_succ_r by lia. done. }
assert (Hmono : ∀ a b : nat, (a <= b)%nat → 10 ^ Z.of_nat a <= 10 ^ Z.of_nat b).
{ intros a b Hab. apply Z.pow_le_mono_r; lia. }
destruct (skip_blanks s) as [|c t] eqn:Ht; simpl; [done|].
simpl in Hstrip.
assert (Hsigned : ∀ (neg : bool) u,
  (String.length u <= k)%nat →
  match digitpart u with
  | Some (v0, _, EmptyString) => Some (if neg then - v0 else v0)
  | _ => None
  end = Some v → - 10 ^ Z.of_nat k < v < 10 ^ Z.of_nat (S k)).
{ intros neg u Hu.
  destruct (digitpart u) as [[[v0 n0] rest]|] eqn:Hdp; [|done].
  destruct rest; [|done]. intros [= <-].
  apply digitpart_bound in Hdp.
  specialize (Hmono _ _ Hu). destruct neg; lia. }
destruct (ascii_dec c "-") as [->|Hminus].
{ apply (Hsigned true). lia. }
destruct (ascii_dec c "+") as [->|Hplus].
{ apply (Hsigned false). lia. }
assert (sign (String c t) = (false, String c t)) as Hsign.
{ unfold sign. destruct c as [[] [] [] [] [] [] [] []]; done. }
change (match c with
        | "-"%char => (true, t) | "+"%char => (false, t)
        | _ => (false, String c t) end) with (sign (String c t)).
rewrite Hsign.
destruct (digitpart (String c t)) as [[[v0 n0] rest]|] eqn:Hdp; [|done].
destruct rest; [|done]. intros [= <-].
apply digitpart_bound in Hdp.
pose proof (Hmono (String.length (String c t)) (S k) ltac:(simpl; lia)).
lia.
Qed.
End int_bounds.

(** X6. The year of a parsed row is an integer of at most four digits
    and its month one of at most two: between -999 and 9999 and between
    -9 and 99. The month is not held to the range 1 to 12. *)
Theorem parsed_date_range (line : string) (r : Row) :
  parse_line line = Some r →
  -999 <= year r <= 9999 ∧ -9 <= month r <= 99.
Proof.
  intros [Hy Hm]%parse_line_date.
  apply (py_int_bound 3) in Hy; [|apply length_substring].
  apply (py_int_bound 1) in Hm; [|apply length_substring].
  simpl in Hy, Hm. lia.
Qed.

Lemma parsed_date_range_witness :
  (parse_line "999999,1,2,3,4" = Some (mkRow 9999 99 (lit "1") (lit "2") (lit "3") (lit "4"))
   ∧ parse_line "-999-9,1,2,3,4" = Some (mkRow (-999) (-9) (lit "1") (lit "2") (lit "3") (lit "4"))
   ∧ parse_line "192613,1,2,3,4" = Some (mkRow 1926 13 (lit "1") (lit "2") (lit "3") (lit "4")))
  ∧ (-999 <= 1926 <= 9999 ∧ -9 <= 13 <= 99).
Proof.
  assert (H : parse_line "192613,1,2,3,4"
              = Some (mkRow 1926 13 (lit "1") (lit "2") (lit "3") (lit "4")))
    by (vm_compute; reflexivity).
  split; [|exact (parsed_date_range _ _ H)].
  split; [vm_compute; reflexivity|]. split; [vm_compute; reflexivity|].
  exact H.
Defined.

(** The information separators, which [str.strip()] removes, are no
    blanks for [int]: a token that holds one is not read, and its row is
    passed over. *)
Example separator_in_token_is_skipped :
  py_int (String "031" "7") = None
  ∧ parse_line ("1927" +:+ String "031" "7,1,2,3,4") = None
  ∧ parse_line (String "031" "192707,1,2,3,4")
    = Some (mkRow 1927 7 (lit "1") (lit "2") (lit "3") (lit "4")).
Proof. repeat split; vm_compute; reflexivity. Qed.


(** ** Fields that are not numbers in the usual sense *)

Section nan.
Implicit Types (x cum : float64) (values : list float64).

Lemma fmul_nan_r x : fmul x S754_nan = S754_nan.
Proof. by destruct x. Qed.

Lemma growth_nan : growth S754_nan = S754_nan.
Proof. reflexivity. Qed.

Lemma compound_from_nan values : compound_from S754_nan values = S754_nan.
Proof. induction values as [|v values IH]; [done|]. exact IH. Qed.

Lemma compound_from_elem_nan cum values :
S754_nan ∈ values → compound_from cum values = S754_nan.
Proof.
intros (l1 & l2 & ->)%list_elem_of_split.
rewrite compound_from_app, compound_from_cons, growth_nan, fmul_nan_r.
apply compound_from_nan.
Qed.

Lemma annual_return_nan values :
S754_nan ∈ values → annual_return values = S754_nan.
Proof.
intros Hin. unfold annual_return, compound.
by rewrite (compound_from_elem_nan _ _ Hin).
Qed.
End nan.

(** X7. A field that reads ["nan"] is accepted as a number, and one such
    month makes the annual return of its year a NaN: the year stays in
    the series with that value. *)
Theorem nan_poisons_the_year (df : list Row) (col : column) (y : Z) (r : Row) :
  (11 <= length (group_of df y))%nat →
  r ∈ group_of df y →
  col_value col r = S754_nan →
  monthly_to_annual df col !! y = Some S754_nan.
Proof.
  intros Hlen Hr Hnan. rewrite monthly_to_annual_lookup.
  rewrite (proj2 (Nat.ltb_ge _ 11)) by lia. f_equal.
  apply annual_return_nan. rewrite <- Hnan. by apply list_elem_of_fmap_2.
Qed.

Lemma nan_poisons_the_year_witness :
  parse_line (csv_row "192703" "    2.96" "   -2.56" "   -2.43" "     nan")
  = Some (mkRow 1927 3 (lit "2.96") (lit "-2.56") (lit "-2.43") S754_nan)
  ∧ length (group_of nan_year 1927) = 11%nat
  ∧ monthly_to_annual nan_year Col_tbill !! 1927 = Some S754_nan
  ∧ monthly_to_annual nan_year Col_mkt_total !! 1927 = Some S754_nan.
Proof.
  split; [vm_compute; reflexivity|]. split; [reflexivity|].
  assert (Hlen : (11 <= length (group_of nan_year 1927))%nat)
    by (vm_compute; lia).
  assert (Hin : mkRow 1927 3 (lit "2.96") (lit "-2.56") (lit "-2.43") S754_nan
                ∈ group_of nan_year 1927).
  { vm_compute. do 2 right. left. }
  split.
  - exact (nan_poisons_the_year nan_year Col_tbill 1927 _ Hlen Hin eq_refl).
  - exact (nan_poisons_the_year nan_year Col_mkt_total 1927 _ Hlen Hin eq_refl).
Defined.

(** ** The bounds of the monthly block *)

(** X8. When a start line is found at index [s]: it is the first start
    line, and the block begins with it. If an end index [i] is found,
    then [s] is not 0, [i] lies more than ten lines past [s], line [i] is
    the first end line there (blank lines and the marker nearer to the
    start do not end the block), and the block is the lines from [s] up
    to [i], at least eleven of them. If none is found, the block is all
    the lines from [s] on. *)
Theorem block_bounds (lines : list string) (s : nat) (e : option nat) :
  scan_lines 0 lines None = (Some s, e) →
  (∃ line, lines !! s = Some line ∧ is_start_line line = true
           ∧ head (block_of lines s e) = Some line)
  ∧ (∀ j line, lines !! j = Some line → (j < s)%nat →
       is_start_line line = false)
  ∧ match e with
    | Some i =>
        (0 < s)%nat ∧ (s + 10 < i)%nat
        ∧ (∃ line, lines !! i = Some line ∧ is_end_line line = true)
        ∧ (∀ j line, lines !! j = Some line → (s + 10 < j < i)%nat →
             is_end_line line = false)
        ∧ block_of lines s e = take (i - s) (drop s lines)
        ∧ length (block_of lines s e) = (i - s)%nat
    | None =>
        block_of lines s e = drop s lines
        ∧ ((0 < s)%nat →
           ∀ j line, lines !! j = Some line → (s + 10 < j)%nat →
             is_end_line line = false)
    end.
Proof.
  rewrite scan_lines_spec.
  destruct (list_find _ lines) as [[s' l]|] eqn:Hfind; [|done].
  intros [= -> <-].
  apply list_find_Some in Hfind as (Hl & Hstart & Hfirst).
  assert (Hs : (s < length lines)%nat) by (by eapply lookup_lt_Some).
  assert (Hhead : ∀ n, (0 < n)%nat → head (take n (drop s lines)) = Some l).
  { intros n Hn. rewrite head_lookup, lookup_take_lt by lia.
    by rewrite lookup_drop, Nat.add_0_r. }
  assert (Hbefore : ∀ j line, lines !! j = Some line → (j < s)%nat →
            is_start_line line = false).
  { intros j line Hj Hlt. specialize (Hfirst j line Hj Hlt).
    by destruct (is_start_line line). }
  apply Is_true_true in Hstart.
  destruct s as [|s]; simpl.
  { unfold block_of, list_slice. simpl. rewrite Nat.sub_0_r.
    split; [|split; [done|]].
    - exists l. split; [done|]. split; [done|]. apply (Hhead (length lines)). lia.
    - split; [|lia]. by rewrite take_ge by (rewrite length_drop; lia). }
  destruct (list_find _ (drop _ lines)) as [[k x]|] eqn:Hend; simpl.
  - apply list_find_Some in Hend as (Hx & Hendx & Hnone).
    rewrite lookup_drop in Hx. apply Is_true_true in Hendx.
    unfold block_of, list_slice. simpl.
    split; [|split; [done|]].
    { exists l. split; [done|]. split; [done|]. apply Hhead. lia. }
    split; [lia|]. split; [lia|]. split; [|split; [|split]].
    + exists x. split; [|done]. rewrite <- Hx. f_equal; lia.
    + intros j line Hj Hrange.
      specialize (Hnone (j - S (s + 11))%nat line).
      rewrite lookup_drop in Hnone.
      replace (S (s + 11) + (j - S (s + 11)))%nat with j in Hnone by lia.
      specialize (Hnone Hj ltac:(lia)). by destruct (is_end_line line).
    + done.
    + apply lookup_lt_Some in Hx. rewrite length_take, length_drop. lia.
  - unfold block_of, list_slice. simpl.
    split; [|split; [done|]].
    { exists l. split; [done|]. split; [done|]. apply Hhead. lia. }
    split.
    + by rewrite take_ge by (rewrite length_drop; lia).
    + intros _ j line Hj Hgt.
      apply list_find_None in Hend. rewrite Forall_forall in Hend.
      assert (Hin : line ∈ drop (S (s + 11)) lines).
      { apply list_elem_of_lookup. exists (j - S (s + 11))%nat.
        rewrite lookup_drop. rewrite <- Hj. f_equal; lia. }
      specialize (Hend line Hin). by destruct (is_end_line line).
Qed.

Lemma block_bounds_witness :
  scan_lines 0 (split newline blank_lines_raw) None
  = (Some 1%nat, Some 14%nat)
  ∧ split newline blank_lines_raw !! 3%nat = Some EmptyString
  ∧ length (block_of (split newline blank_lines_raw) 1 (Some 14%nat))
    = 13%nat.
Proof.
  assert (H : scan_lines 0 (split newline blank_lines_raw) None
              = (Some 1%nat, Some 14%nat)) by (vm_compute; reflexivity).
  split; [exact H|]. split; [reflexivity|].
  destruct (block_bounds _ _ _ H) as (_ & _ & _ & _ & _ & _ & _ & Hlen).
  exact Hlen.
Defined.

(** ** Rows that do not count *)

(** X9. The annual return of a year depends on the rows of that year
    only: rows of other years, wherever they stand in the frame, change
    neither whether the year qualifies nor its value. *)
Theorem other_years_do_not_matter (df1 extra df2 : list Row) (col : column)
    (y : Z) :
  Forall (λ r, year r ≠ y) extra →
  monthly_to_annual (df1 ++ extra ++ df2) col !! y
  = monthly_to_annual (df1 ++ df2) col !! y.
Proof.
  intros Hextra. rewrite !monthly_to_annual_lookup.
  assert (Hnil : group_of extra y = []).
  { unfold group_of. induction Hextra as [|r l Hr _ IH]; [done|].
    by rewrite filter_cons_False. }
  by rewrite !group_of_app, Hnil.
Qed.

Lemma other_years_do_not_matter_witness :
  monthly_to_annual (take 5 sample_ff ++ drop 12 sample_ff ++ drop 5 (take 12 sample_ff))
    Col_mkt_total !! 1927
  = monthly_to_annual (take 5 sample_ff ++ drop 5 (take 12 sample_ff))
      Col_mkt_total !! 1927.
Proof.
  apply (other_years_do_not_matter (take 5 sample_ff) (drop 12 sample_ff)
           (drop 5 (take 12 sample_ff)) Col_mkt_total 1927).
  vm_compute. constructor; [discriminate|constructor].
Defined.

(** X10. A line whose first field has not six characters is never a
    record, so that lines of the annual section, whose first field is a
    year of four digits, add nothing to the frame when they come to lie
    in the block: the frame is that of the block without them. *)
Theorem annual_rows_are_not_records (block tail : list string) :
  Forall (λ line, len (ym_token line) ≠ 6%nat) tail →
  parse_rows (block ++ tail) = parse_rows block.
Proof.
  intros Htail. rewrite parse_rows_app.
  assert (Hnil : parse_rows tail = []).
  { induction Htail as [|line tail Hline _ IH]; [done|].
    rewrite parse_rows_cons_None; [done|].
    apply parse_line_None. intros (_ & Hlen & _). by apply Hline. }
  by rewrite Hnil, app_nil_r.
Qed.

Lemma annual_rows_are_not_records_witness :
  block_of (split newline raw_start_first) 0 None
  = sample_rows ++ annual_section
  ∧ parse_rows (sample_rows ++ annual_section) = parse_rows sample_rows.
Proof.
  split; [vm_compute; reflexivity|].
  apply (annual_rows_are_not_records sample_rows annual_section).
  repeat constructor; vm_compute; discriminate.
Defined.

(** ** The dates of the document *)

Section dates.
Implicit Types (c : ascii) (d : Z) (line : string) (r : Row).

Lemma digit_inv c d : digit c = Some d → c = digit_char d ∧ 0 <= d <= 9.
Proof.
unfold digit. destruct (Ascii.is_nat c) as [k|] eqn:Hk; [|done].
intros [= <-]. unfold Ascii.is_nat in Hk.
destruct c as [[] [] [] [] [] [] [] []]; simpl in Hk; simplify_eq;
  (split; [reflexivity|lia]).
Qed.

Lemma year_tokens_ok :
forallb (λ d1, forallb (λ d2, forallb (λ d3, forallb (λ d4,
  year_token_ok d1 d2 d3 d4)
  (seqZ 0 10)) (seqZ 0 10)) (seqZ 0 10)) (seqZ 1 9) = true.
Proof. vm_compute. reflexivity. Qed.

Lemma month_tokens_ok :
forallb (λ d1, forallb (λ d2, month_token_ok d1 d2) (seqZ 0 10))
  (seqZ 0 10) = true.
Proof. vm_compute. reflexivity. Qed.

Lemma forallb_seqZ (f : Z → bool) (m n d : Z) :
forallb f (seqZ m n) = true → m <= d < m + n → f d = true.
Proof.
intros Hall Hd. rewrite forallb_forall in Hall. apply Hall.
apply list_elem_of_In, elem_of_seqZ. done.
Qed.

Lemma year_token_spec d1 d2 d3 d4 :
1 <= d1 <= 9 → 0 <= d2 <= 9 → 0 <= d3 <= 9 → 0 <= d4 <= 9 →
py_int (digits4 d1 d2 d3 d4) = Some (1000 * d1 + 100 * d2 + 10 * d3 + d4)
∧ pretty (1000 * d1 + 100 * d2 + 10 * d3 + d4) = digits4 d1 d2 d3 d4.
Proof.
intros H1 H2 H3 H4. pose proof year_tokens_ok as Hall.
apply (forallb_seqZ _ _ _ d1) in Hall; [|lia].
apply (forallb_seqZ _ _ _ d2) in Hall; [|lia].
apply (forallb_seqZ _ _ _ d3) in Hall; [|lia].
apply (forallb_seqZ _ _ _ d4) in Hall; [|lia].
unfold year_token_ok in Hall. cbv zeta in Hall.
apply andb_prop in Hall as [Ha Hb].
by apply bool_decide_eq_true in Ha, Hb.
Qed.

Lemma month_token_spec d1 d2 :
0 <= d1 <= 9 → 0 <= d2 <= 9 →
py_int (digits2 d1 d2) = Some (10 * d1 + d2)
∧ format_02d (10 * d1 + d2) = digits2 d1 d2.
Proof.
intros H1 H2. pose proof month_tokens_ok as Hall.
apply (forallb_seqZ _ _ _ d1) in Hall; [|lia].
apply (forallb_seqZ _ _ _ d2) in Hall; [|lia].
unfold month_token_ok in Hall. cbv zeta in Hall.
apply andb_prop in Hall as [Ha Hb].
by apply bool_decide_eq_true in Ha, Hb.
Qed.

Lemma parse_line_token_len line r :
parse_line line = Some r → len (ym_token line) = 6%nat.
Proof.
intros Hr. assert (Hwf : accepted_line line)
  by (apply parse_line_is_Some; eauto).
by destruct Hwf as (_ & Hlen & _).
Qed.
End dates.

(** X11. For a row whose date token is six decimal digits of which the
    first is not 0, as the rows of the published file are, the date in
    the document is the token with a hyphen after its fourth digit. *)
Theorem date_is_token_with_hyphen (line : string) (r : Row) :
  parse_line line = Some r →
  all_digits (ym_token line) = true →
  startswith (ym_token line) "0" = false →
  year_month r
  = slice 0 4 (ym_token line) +:+ "-" +:+ slice 4 6 (ym_token line).
Proof.
  intros Hr Hdigits Hzero.
  pose proof (parse_line_token_len line r Hr) as Hlen.
  destruct (parse_line_date line r Hr) as [Hy Hm].
  destruct (ym_token line) as [|c1 [|c2 [|c3 [|c4 [|c5 [|c6 [|c7 t]]]]]]];
    try done.
  simpl in Hdigits.
  apply andb_prop in Hdigits as [[d1 [-> ?]%digit_inv]%bool_decide_eq_true Hdigits].
  apply andb_prop in Hdigits as [[d2 [-> ?]%digit_inv]%bool_decide_eq_true Hdigits].
  apply andb_prop in Hdigits as [[d3 [-> ?]%digit_inv]%bool_decide_eq_true Hdigits].
  apply andb_prop in Hdigits as [[d4 [-> ?]%digit_inv]%bool_decide_eq_true Hdigits].
  apply andb_prop in Hdigits as [[d5 [-> ?]%digit_inv]%bool_decide_eq_true Hdigits].
  apply andb_prop in Hdigits as [[d6 [-> ?]%digit_inv]%bool_decide_eq_true _].
  assert (d1 ≠ 0).
  { intros ->. by vm_compute in Hzero. }
  change (slice 0 4 _) with (digits4 d1 d2 d3 d4) in *.
  change (slice 4 6 _) with (digits2 d5 d6) in *.
  destruct (year_token_spec d1 d2 d3 d4) as [Hy' Hpretty]; [lia..|].
  destruct (month_token_spec d5 d6) as [Hm' Hformat]; [lia..|].
  rewrite Hy' in Hy. rewrite Hm' in Hm.
  injection Hy as Hy. injection Hm as Hm.
  unfold year_month. by rewrite <- Hy, <- Hm, Hpretty, Hformat.
Qed.

Lemma date_is_token_with_hyphen_witness :
  ym_token (csv_row " 192607 " "2.96" "-2.56" "-2.43" "0.22") = "192607"
  ∧ year_month (mkRow 1926 7 (lit "2.96") (lit "-2.56") (lit "-2.43") (lit "0.22"))
    = "1926-07".
Proof.
  split; [vm_compute; reflexivity|].
  apply (date_is_token_with_hyphen
           (csv_row " 192607 " "2.96" "-2.56" "-2.43" "0.22")
           (mkRow 1926 7 (lit "2.96") (lit "-2.56") (lit "-2.43") (lit "0.22")));
    vm_compute; reflexivity.
Defined.
